(** * cipl_app: Excel import (scripts/excel_import.py)

    A shallow embedding of the import script and the properties of its
    field-mapping preview, its doctype query and its row-by-row import
    engine.

    Layout: Part I holds the definitions (Python values and dictionaries,
    the binary64 arithmetic behind the progress percentage, the preview,
    the doctype query, the import engine over an abstract Frappe backend, an
    in-memory reference backend, the file resolver and the start of an
    import); Part II holds the lemmas and theorems. *)

From Stdlib Require Import ZArith QArith Qround Qpower Lia Lqa.
From Stdlib Require Import List Bool String Ascii DecimalString.
From Stdlib Require Import Permutation Sorted.
From Stdlib Require Import Floats Uint63.
Import ListNotations.

Local Open Scope string_scope.
Local Open Scope list_scope.
Local Open Scope Z_scope.

(* ================================================================== *)
(** * Part I: definitions *)
(* ================================================================== *)

(** ** Python values *)

(** The scalar values that reach the script: [None], booleans, integers,
    floats (a finite binary64 value is a rational), strings and datetimes
    (an opaque instant). *)
Inductive pyval : Type :=
| PyNone
| PyBool (b : bool)
| PyInt (z : Z)
| PyFloat (q : Q)
| PyStr (s : string)
| PyDatetime (t : Z).

(** Truth value of a Python object, as tested by [if x:]. *)
Definition py_truthy (v : pyval) : bool :=
  match v with
  | PyNone => false
  | PyBool b => b
  | PyInt z => negb (z =? 0)
  | PyFloat q => negb (Qeq_bool q 0)
  | PyStr s => negb (s =? "")%string
  | PyDatetime _ => true
  end.

(** [if s:] for a value that is either [None] or a string. *)
Definition str_truthy (o : option string) : bool :=
  match o with
  | Some s => negb (s =? "")%string
  | None => false
  end.

(** The string behind a value that is [None] or a string, where the code
    has already tested it to be a non-empty string. *)
Definition str_or_empty (o : option string) : string :=
  match o with
  | Some s => s
  | None => ""
  end.

(** [if n:] for an integer flag. *)
Definition int_truthy (z : Z) : bool := negb (z =? 0).

(** [x is not None]. *)
Definition is_not_none (v : pyval) : bool :=
  match v with
  | PyNone => false
  | _ => true
  end.

Definition pyval_eqb (a b : pyval) : bool :=
  match a, b with
  | PyNone, PyNone => true
  | PyBool x, PyBool y => Bool.eqb x y
  | PyInt x, PyInt y => x =? y
  | PyFloat x, PyFloat y => Qeq_bool x y
  | PyStr x, PyStr y => (x =? y)%string
  | PyDatetime x, PyDatetime y => x =? y
  | _, _ => false
  end.

(** [str(n)] for an integer. *)
Definition str_of_int (z : Z) : string := NilZero.string_of_int (Z.to_int z).

(** ** Python dictionaries

    A [dict] keeps its keys unique and in insertion order; assigning to an
    existing key replaces the value in place, assigning to a new key appends
    it. *)
Definition dict (V : Type) : Type := list (string * V).

Fixpoint dict_get {V : Type} (d : dict V) (k : string) : option V :=
  match d with
  | [] => None
  | (k', v) :: d' => if (k' =? k)%string then Some v else dict_get d' k
  end.

(** [k in d] *)
Definition dict_contains {V : Type} (k : string) (d : dict V) : bool :=
  match dict_get d k with
  | Some _ => true
  | None => false
  end.

(** [d[k] = v] *)
Fixpoint dict_set {V : Type} (d : dict V) (k : string) (v : V) : dict V :=
  match d with
  | [] => [(k, v)]
  | (k', v') :: d' =>
      if (k' =? k)%string then (k, v) :: d' else (k', v') :: dict_set d' k v
  end.

(** [d.keys()] and [d.items()] *)
Definition dict_keys {V : Type} (d : dict V) : list string := map fst d.
Definition dict_items {V : Type} (d : dict V) : list (string * V) := d.

(** [x in l] for a list of strings. *)
Definition list_contains (x : string) (l : list string) : bool :=
  existsb (fun y => (y =? x)%string) l.

(** One [frappe.log_error(message, title)]. *)
Record ErrorLog : Type := {
  log_message : string;
  log_title : string
}.

(** ** get_field_mapping (lines 180-196)

    The mapping document's child rows, folded into a dictionary; the lookup
    of the document is Frappe's.  A failure there is logged under the title
    Get Field Mapping Error, with the traceback, and yields the empty
    mapping: the function gives the mapping and what it logged. *)
Record MappingRow : Type := {
  excel_field_name : string;
  doctype_field_name : string
}.

Definition build_field_mapping (mapped_field : list MappingRow) : dict string :=
  fold_left (fun fm row => dict_set fm (excel_field_name row) (doctype_field_name row))
            mapped_field [].

Definition get_field_mapping (traceback_ : string)
           (mapping_doc : option (list MappingRow)) : dict string * list ErrorLog :=
  match mapping_doc with
  | Some rows => (build_field_mapping rows, [])
  | None =>
      ([], [{| log_message := traceback_; log_title := "Get Field Mapping Error" |}])
  end.

(** ** validate_import_preview (lines 45-95) *)

Record Preview : Type := {
  total_excel_columns : Z;
  mapped_fields : list string;
  missing_fields : list string;
  missing_in_excel : list string;
  has_missing : bool
}.

Inductive PreviewResult : Type :=
| PreviewSuccess (p : Preview)        (* {'status': 'success', ...} *)
| PreviewError (message : string).    (* {'status': 'error', 'message': ...} *)

(** Lines 63-88: each of the three loops appends the elements that pass its
    test, in order, which is a [filter]. *)
Definition preview_of (field_mapping : dict string) (excel_columns : list string) : Preview :=
  let missing_fields_ :=
    filter (fun col => negb (dict_contains col field_mapping)) excel_columns in
  let mapped_fields_ :=
    filter (fun excel_field => list_contains excel_field excel_columns)
           (dict_keys field_mapping) in
  let missing_in_excel_ :=
    filter (fun excel_field => negb (list_contains excel_field excel_columns))
           (dict_keys field_mapping) in
  {| total_excel_columns := Z.of_nat (List.length excel_columns);
     mapped_fields := mapped_fields_;
     missing_fields := missing_fields_;
     missing_in_excel := missing_in_excel_;
     has_missing := (0 <? Z.of_nat (List.length missing_fields_))
                    || (0 <? Z.of_nat (List.length missing_in_excel_)) |}.

(** An exception carries its message, [str(e)]. *)
Inductive exn : Type := Exception (msg : string).

Definition str_of_exn (e : exn) : string :=
  match e with Exception msg => msg end.

Section Preview.
(** The collaborators of the preview: file resolution, the stored mapping,
    the header row of the spreadsheet, and the tracebacks Frappe formats
    (of a failed load of the mapping document, and of an exception). *)
Variable validate_excel_file : string -> exn + string.
Variable stored_mapping : string -> option (list MappingRow).
Variable read_excel_header : string -> exn + list string.
Variable load_traceback : string.
Variable traceback_of : exn -> string.

(** Lines 90-95: the handler logs the failure and returns the error
    result. *)
Definition preview_failed (logged : list ErrorLog) (e : exn)
  : PreviewResult * list ErrorLog :=
  (PreviewError (str_of_exn e),
   logged ++ [{| log_message := traceback_of e; log_title := "Import Preview Error" |}]).

(** The result of the preview and what it writes to the error log. *)
Definition validate_import_preview (doctype_name file_url : string)
  : PreviewResult * list ErrorLog :=
  match validate_excel_file file_url with
  | inl e => preview_failed [] e
  | inr file_path =>
      let (field_mapping, logged) :=
        get_field_mapping load_traceback (stored_mapping doctype_name) in
      match field_mapping with
      | [] =>
          preview_failed logged
            (Exception ("No field mappings found for " ++ doctype_name)%string)
      | _ :: _ =>
          match read_excel_header file_path with
          | inl e => preview_failed logged e
          | inr excel_columns =>
              (PreviewSuccess (preview_of field_mapping excel_columns), logged)
          end
      end
  end.
End Preview.

(** ** get_cipl_app_doctypes (lines 11-39) *)

(** A row of the DocType table, with the columns the query reads. *)
Record DocTypeRow : Type := {
  dt_name : string;
  dt_module : string;
  dt_istable : Z
}.

(** The filter values the function builds: a plain value (equality),
    [['not in', names]] and [['like', pattern]]. *)
Inductive FilterCond : Type :=
| FEquals (v : pyval)
| FNotIn (names : list string)
| FLike (pattern : string).

(** SQL [LIKE]: [%] matches any run of characters, [_] any one character. *)
Fixpoint sql_like (pattern s : string) : bool :=
  match pattern with
  | EmptyString => match s with EmptyString => true | _ => false end
  | String c pattern' =>
      if (c =? "%")%char then
        (fix any_run (s : string) : bool :=
           sql_like pattern' s
           || match s with
              | EmptyString => false
              | String _ s' => any_run s'
              end) s
      else
        match s with
        | EmptyString => false
        | String c' s' =>
            ((c =? "_")%char || (c =? c')%char) && sql_like pattern' s'
        end
  end.

Definition doctype_column (row : DocTypeRow) (column : string) : option pyval :=
  if (column =? "name")%string then Some (PyStr (dt_name row))
  else if (column =? "module")%string then Some (PyStr (dt_module row))
  else if (column =? "istable")%string then Some (PyInt (dt_istable row))
  else None.

Definition cond_holds (row : DocTypeRow) (column : string) (c : FilterCond) : bool :=
  match doctype_column row column with
  | None => false
  | Some v =>
      match c with
      | FEquals w => pyval_eqb v w
      | FNotIn names =>
          match v with
          | PyStr s => negb (list_contains s names)
          | _ => true
          end
      | FLike pattern =>
          match v with
          | PyStr s => sql_like pattern s
          | _ => false
          end
      end
  end.

(** Insertion of a row into a list ordered by name ([order_by='name']). *)
Fixpoint insert_by_name (row : DocTypeRow) (l : list DocTypeRow) : list DocTypeRow :=
  match l with
  | [] => [row]
  | r :: l' =>
      if String.leb (dt_name row) (dt_name r) then row :: l
      else r :: insert_by_name row l'
  end.

Definition order_by_name (l : list DocTypeRow) : list DocTypeRow :=
  fold_right insert_by_name [] l.

(** [frappe.get_all('DocType', filters=..., fields=['name'], order_by='name',
    limit_start=..., limit_page_length=...)]: the rows that satisfy every
    entry of the filter dictionary, ordered, then the requested window.  A
    page length of 0 puts no limit on the query: every row that matches is
    returned, from the first one. *)
Definition get_all (table : list DocTypeRow) (filters : dict FilterCond)
           (limit_start limit_page_length : nat) : list DocTypeRow :=
  let selected :=
    filter (fun row => forallb (fun kc => cond_holds row (fst kc) (snd kc)) filters) table in
  match limit_page_length with
  | O => order_by_name selected
  | S _ => firstn limit_page_length (skipn limit_start (order_by_name selected))
  end.

Definition excluded_doctypes : list string :=
  ["excel_field_mapping"; "field_mapping_child"].

Definition get_cipl_app_doctypes (table : list DocTypeRow) (txt : string)
           (start page_len : nat) : list (list string) :=
  let filter_conditions : dict FilterCond :=
    [("module", FEquals (PyStr "Cipl App"));
     ("istable", FEquals (PyInt 0));
     ("name", FNotIn excluded_doctypes)] in
  let filter_conditions :=
    if negb (txt =? "")%string
    then dict_set filter_conditions "name" (FLike ("%" ++ txt ++ "%")%string)
    else filter_conditions in
  let doctypes := get_all table filter_conditions start page_len in
  map (fun d => [dt_name d]) doctypes.

(** ** Binary64 arithmetic of the progress percentage (line 307)

    [int(((idx + 1) / total_rows) * 100)] divides two integers into a
    float, multiplies the float by 100 and truncates.  Python floats are
    IEEE-754 binary64 and both operations are correctly rounded, to nearest
    with ties to even: the result is the exact rational result rounded to a
    53-bit significand.  A finite float is the rational it denotes. *)

(** The exponent of the leading bit: [2^(ilog2 x) <= x < 2^(ilog2 x + 1)]
    for [x > 0]. *)
Definition ilog2 (x : Q) : Z :=
  let l := Z.log2 (Qnum x) - Z.log2 (Zpos (Qden x)) in
  if Qle_bool (2 ^ l) x then l else l - 1.

(** Rounding to the nearest integer, ties to the even one. *)
Definition round_half_even (y : Q) : Z :=
  let f := Qfloor y in
  match Qcompare (y - inject_Z f) (1 # 2) with
  | Lt => f
  | Gt => f + 1
  | Eq => if Z.even f then f else f + 1
  end.

(** The exponent of the unit in the last place: 53 significant bits, and
    never below the subnormal exponent -1074. *)
Definition float_exp (x : Q) : Z := Z.max (ilog2 x - 52) (-1074).

Definition significand (x : Q) : Z := round_half_even (x / 2 ^ float_exp x).

(** Rounding of a rational to binary64 (no overflow arises below: the
    values stay within [0, 100]). *)
Definition round_binary64 (x : Q) : Q :=
  match Qcompare 0 x with
  | Eq => 0%Q
  | Lt => (inject_Z (significand x) * 2 ^ float_exp x)%Q
  | Gt => (- (inject_Z (significand (- x)) * 2 ^ float_exp (- x)))%Q
  end.

(** [a / b] on integers, [x * y] on floats and [int(x)]. *)
Definition float_truediv (a b : Z) : Q := round_binary64 (inject_Z a / inject_Z b).
Definition float_mul (x y : Q) : Q := round_binary64 (x * y).
Definition int_of_float (x : Q) : Z := if Qle_bool 0 x then Qfloor x else Qceiling x.

Definition progress_percent (idx total_rows : Z) : Z :=
  int_of_float (float_mul (float_truediv (idx + 1) total_rows) (inject_Z 100)).

(** The same computation on the machine's binary64 numbers, to compare the
    rational model with. *)
Definition Q_of_float (f : float) : option Q :=
  match Prim2SF f with
  | S754_zero _ => Some 0%Q
  | S754_finite s m e =>
      Some ((if s then - inject_Z (Zpos m) else inject_Z (Zpos m)) * 2 ^ e)%Q
  | _ => None
  end.

Definition machine_percent (idx total_rows : Z) : option Z :=
  let quotient :=
    PrimFloat.div (PrimFloat.of_uint63 (Uint63.of_Z (idx + 1)))
                  (PrimFloat.of_uint63 (Uint63.of_Z total_rows)) in
  let scaled := PrimFloat.mul quotient (PrimFloat.of_uint63 (Uint63.of_Z 100)) in
  option_map int_of_float (Q_of_float scaled).

(** ** The import engine (process_excel_import, lines 210-352) *)

(** What [row[excel_field]] hands out: the missing-value marker (NaN, NaT,
    None), a numpy integer or float, a pandas timestamp, or a plain Python
    object. *)
Inductive cell : Type :=
| NaN
| NpInteger (z : Z)
| NpFloating (q : Q)
| Timestamp (t : Z)
| Object (v : pyval).

Definition pd_notna (c : cell) : bool :=
  match c with
  | NaN => false
  | Object PyNone => false
  | _ => true
  end.

(** Lines 258-261: numpy scalars become Python scalars, timestamps become
    datetimes, anything else is kept. *)
Definition to_python (c : cell) : pyval :=
  match c with
  | NaN => PyNone
  | NpInteger z => PyInt z
  | NpFloating q => PyFloat q
  | Timestamp t => PyDatetime t
  | Object v => v
  end.

Record DataFrame : Type := {
  df_columns : list string;
  df_rows : list (list cell)
}.

(** [row[excel_field]]: the cell under the column of that label. *)
Fixpoint row_getitem (columns : list string) (row : list cell) (label : string)
  : exn + cell :=
  match columns, row with
  | c :: columns', v :: row' =>
      if (c =? label)%string then inr v else row_getitem columns' row' label
  | _, _ => inl (Exception label)
  end.

Definition Doc : Type := dict pyval.

Record ProgressEvent : Type := {
  progress : Z;
  total : Z;
  message : string;
  status : string
}.

(** One [frappe.publish_realtime(event, message, user=...)]. *)
Record Realtime : Type := {
  rt_event : string;
  rt_message : ProgressEvent;
  rt_user : string
}.

(** The calls made on the backend, in order. *)
Inductive Call : Type :=
| CallReadExcel (file_path : string)
| CallGetValue (doctype field : string) (value : pyval)
| CallGetDoc (doctype name : string)
| CallSave (doc : Doc)
| CallNewDoc (doc_data : Doc)
| CallInsert (doc : Doc)
| CallCommit
| CallRollback
| CallPathExists (file_path : string)
| CallRemove (file_path : string)
| CallExists (doctype field : string) (value : pyval)
| CallDeleteDoc (doctype : string) (name : option string).

(** Frappe's database, pandas' reader and the file system, over a store
    [St].  A read leaves the store as it is and returns a value or raises; a
    write returns the new store and may raise. *)
Class Backend (St : Type) : Type := {
  read_excel : string -> St -> exn + DataFrame;
  db_get_value : string -> string -> pyval -> St -> exn + option string;
  get_doc : string -> string -> St -> exn + Doc;
  new_doc : Doc -> St -> exn + Doc;
  db_exists : string -> string -> pyval -> St -> exn + bool;
  os_path_exists : string -> St -> bool;
  doc_save : Doc -> St -> St * (exn + unit);
  doc_insert : Doc -> St -> St * (exn + unit);
  delete_doc : string -> option string -> St -> St * (exn + unit);
  os_remove : string -> St -> St * (exn + unit);
  db_commit : St -> St * (exn + unit);
  db_rollback : St -> St;
  get_traceback : exn -> string
}.

Record Counters : Type := {
  success_count : Z;
  created_count : Z;
  updated_count : Z;
  skipped_count : Z;
  error_count : Z
}.

Definition zero_counters : Counters :=
  {| success_count := 0; created_count := 0; updated_count := 0;
     skipped_count := 0; error_count := 0 |}.

Definition count_created (c : Counters) : Counters :=
  {| success_count := success_count c + 1; created_count := created_count c + 1;
     updated_count := updated_count c; skipped_count := skipped_count c;
     error_count := error_count c |}.

Definition count_updated (c : Counters) : Counters :=
  {| success_count := success_count c + 1; created_count := created_count c;
     updated_count := updated_count c + 1; skipped_count := skipped_count c;
     error_count := error_count c |}.

Definition count_skipped (c : Counters) : Counters :=
  {| success_count := success_count c; created_count := created_count c;
     updated_count := updated_count c; skipped_count := skipped_count c + 1;
     error_count := error_count c |}.

Definition count_error (c : Counters) : Counters :=
  {| success_count := success_count c; created_count := created_count c;
     updated_count := updated_count c; skipped_count := skipped_count c;
     error_count := error_count c + 1 |}.

Definition rows_counted (c : Counters) : Z :=
  created_count c + updated_count c + skipped_count c + error_count c.

(** The arguments of one enqueued import (the parameters of
    process_excel_import). *)
Record Job : Type := {
  doctype_name : string;
  file_path : string;
  field_mapping : dict string;
  unique_field : option string;
  file_url : string;
  allow_create : Z;
  allow_update : Z;
  user : string
}.

Section Engine.
Context {St : Type} {B : Backend St}.

(** The state of one run: the store behind the backend, the session user,
    what went out on the realtime channel and to the error log, the calls
    made on the backend, and the counters (local variables of the run). *)
Record State : Type := mkState {
  store : St;
  session_user : string;
  realtime : list Realtime;
  error_log : list ErrorLog;
  calls : list Call;
  counters : Counters
}.

Definition with_store (s : State) (st : St) : State :=
  mkState st (session_user s) (realtime s) (error_log s) (calls s) (counters s).
Definition with_user (s : State) (u : string) : State :=
  mkState (store s) u (realtime s) (error_log s) (calls s) (counters s).
Definition with_realtime (s : State) (r : list Realtime) : State :=
  mkState (store s) (session_user s) r (error_log s) (calls s) (counters s).
Definition with_error_log (s : State) (l : list ErrorLog) : State :=
  mkState (store s) (session_user s) (realtime s) l (calls s) (counters s).
Definition with_calls (s : State) (l : list Call) : State :=
  mkState (store s) (session_user s) (realtime s) (error_log s) l (counters s).
Definition with_counters (s : State) (c : Counters) : State :=
  mkState (store s) (session_user s) (realtime s) (error_log s) (calls s) c.

(** The progress events published so far. *)
Definition progress_events (s : State) : list ProgressEvent :=
  map rt_message (realtime s).

(** Statements run in a state and either return a value or raise; the
    state reached is kept in both cases. *)
Definition M (A : Type) : Type := State -> State * (exn + A).

Definition ret {A : Type} (a : A) : M A := fun s => (s, inr a).
Definition raise {A : Type} (e : exn) : M A := fun s => (s, inl e).
Definition bind {A C : Type} (m : M A) (k : A -> M C) : M C :=
  fun s =>
    match m s with
    | (s', inr a) => k a s'
    | (s', inl e) => (s', inl e)
    end.
Definition try_except {A : Type} (body : M A) (handler : exn -> M A) : M A :=
  fun s =>
    match body s with
    | (s', inr a) => (s', inr a)
    | (s', inl e) => handler e s'
    end.
Definition modify (f : State -> State) : M unit := fun s => (f s, inr tt).
Definition of_result {A : Type} (r : exn + A) : M A := fun s => (s, r).

Notation "x <- m ;; k" := (bind m (fun x => k))
  (at level 61, m at next level, right associativity).
Notation "m ;; k" := (bind m (fun _ => k))
  (at level 61, right associativity).

(** A read and a write on the backend, recorded among the calls. *)
Definition backend_read {A : Type} (c : Call) (op : St -> exn + A) : M A :=
  fun s => (with_calls s (calls s ++ [c]), op (store s)).
Definition backend_write (c : Call) (op : St -> St * (exn + unit)) : M unit :=
  fun s =>
    let (st', r) := op (store s) in
    (with_store (with_calls s (calls s ++ [c])) st', r).

Definition get_counters : M Counters := fun s => (s, inr (counters s)).
Definition update_counters (f : Counters -> Counters) : M unit :=
  modify (fun s => with_counters s (f (counters s))).

(** Publishing on the realtime channel, writing to the error log and
    setting the session user are taken not to raise: Frappe swallows the
    failures of the channel, and the payloads are integers and strings.
    Every call on the [Backend] may raise. *)

(** publish_progress (lines 355-368) *)
Definition publish_progress (progress_ total_ : Z) (message_ status_ : string) : M unit :=
  modify (fun s =>
    with_realtime s
      (realtime s ++
       [{| rt_event := "excel_import_progress";
           rt_message := {| progress := progress_; total := total_;
                            message := message_; status := status_ |};
           rt_user := session_user s |}])).

(** frappe.log_error(message, title) *)
Definition log_error (message_ title_ : string) : M unit :=
  modify (fun s =>
    with_error_log s
      (error_log s ++ [{| log_message := message_; log_title := title_ |}])).

(** frappe.set_user(user) *)
Definition set_user (user : string) : M unit :=
  modify (fun s => with_user s user).

Section Run.
Variable job : Job.

(** Lines 246-267: the draft of one row and the value of its unique
    field, by a pass over the items of the mapping. *)
Fixpoint map_columns (items : list (string * string)) (excel_columns : list string)
         (row : list cell) (doc_data : Doc) (unique_value : pyval)
  : exn + (Doc * pyval) :=
  match items with
  | [] => inr (doc_data, unique_value)
  | (excel_field, doctype_field) :: items' =>
      if list_contains excel_field excel_columns then
        match row_getitem excel_columns row excel_field with
        | inl e => inl e
        | inr value =>
            if pd_notna value then
              let value := to_python value in
              let doc_data := dict_set doc_data doctype_field value in
              let unique_value :=
                if str_truthy (unique_field job)
                   && (doctype_field =? str_or_empty (unique_field job))%string
                then value else unique_value in
              map_columns items' excel_columns row doc_data unique_value
            else map_columns items' excel_columns row doc_data unique_value
        end
      else map_columns items' excel_columns row doc_data unique_value
  end.

Definition build_doc_data (excel_columns : list string) (row : list cell)
  : exn + (Doc * pyval) :=
  map_columns (dict_items (field_mapping job)) excel_columns row
              [("doctype", PyStr (doctype_name job))] PyNone.

(** Lines 269-276: the duplicate lookup. *)
Definition find_existing (unique_value : pyval) : M (option string) :=
  if str_truthy (unique_field job) && py_truthy unique_value then
    backend_read
      (CallGetValue (doctype_name job) (str_or_empty (unique_field job)) unique_value)
      (db_get_value (doctype_name job) (str_or_empty (unique_field job)) unique_value)
  else ret None.

(** Lines 284-286: [setattr] for every item of the draft but 'doctype'. *)
Definition set_fields (doc : Doc) (doc_data : Doc) : Doc :=
  fold_left
    (fun doc fv =>
       if negb (fst fv =? "doctype")%string then dict_set doc (fst fv) (snd fv)
       else doc)
    (dict_items doc_data) doc.

(** Lines 283-289 *)
Definition update_existing (existing_doc : string) (doc_data : Doc) : M unit :=
  doc <- backend_read (CallGetDoc (doctype_name job) existing_doc)
                      (get_doc (doctype_name job) existing_doc) ;;
  let doc := set_fields doc doc_data in
  backend_write (CallSave doc) (doc_save doc) ;;
  update_counters count_updated.

(** Lines 297-300 *)
Definition create_new (doc_data : Doc) : M unit :=
  doc <- backend_read (CallNewDoc doc_data) (new_doc doc_data) ;;
  backend_write (CallInsert doc) (doc_insert doc) ;;
  update_counters count_created.

(** Lines 278-303: the decision on the flags. *)
Definition reconcile (existing_doc : option string) (doc_data : Doc) : M unit :=
  if str_truthy existing_doc then
    if int_truthy (allow_update job) then
      update_existing (str_or_empty existing_doc) doc_data
    else update_counters count_skipped
  else
    if int_truthy (allow_create job) then create_new doc_data
    else update_counters count_skipped.

(** Line 306 *)
Definition progress_due (idx total_rows : Z) : bool :=
  ((idx + 1) mod 10 =? 0) || (idx + 1 =? total_rows).

(** Lines 305-313 *)
Definition report_progress (idx total_rows : Z) : M unit :=
  if progress_due idx total_rows then
    publish_progress (progress_percent idx total_rows) total_rows
      ("Processing row " ++ str_of_int (idx + 1) ++ " of " ++ str_of_int total_rows)%string
      "in_progress"
  else ret tt.

(** Lines 246-313: the body of the [try] of one row. *)
Definition row_body (excel_columns : list string) (total_rows idx : Z)
           (row : list cell) : M unit :=
  draft <- of_result (build_doc_data excel_columns row) ;;
  let (doc_data, unique_value) := (draft : Doc * pyval) in
  existing_doc <- find_existing unique_value ;;
  reconcile existing_doc doc_data ;;
  report_progress idx total_rows.

(** Lines 315-323: the handler of one row. *)
Definition row_handler (idx : Z) (e : exn) : M unit :=
  update_counters count_error ;;
  log_error ("Row " ++ str_of_int (idx + 1) ++ ": " ++ str_of_exn e
             ++ String "010" (get_traceback e))%string
            ("Excel Import Row Error - " ++ (doctype_name job))%string.

Definition process_row (excel_columns : list string) (total_rows idx : Z)
           (row : list cell) : M unit :=
  try_except (row_body excel_columns total_rows idx row) (row_handler idx).

(** Lines 244-323: [for idx, row in df.iterrows()]. *)
Fixpoint process_rows (excel_columns : list string) (total_rows idx : Z)
         (rows : list (list cell)) : M unit :=
  match rows with
  | [] => ret tt
  | row :: rows' =>
      process_row excel_columns total_rows idx row ;;
      process_rows excel_columns total_rows (idx + 1) rows'
  end.

(** Lines 329-339: removal of the uploaded file and of its File record. *)
Definition remove_uploaded_file : M unit :=
  try_except
    (present <- backend_read (CallPathExists (file_path job))
                             (fun st => inr (os_path_exists (file_path job) st)) ;;
     if (present : bool) then
       backend_write (CallRemove (file_path job)) (os_remove (file_path job)) ;;
       listed <- backend_read (CallExists "File" "file_url" (PyStr (file_url job)))
                              (db_exists "File" "file_url" (PyStr (file_url job))) ;;
       if (listed : bool) then
         name <- backend_read (CallGetValue "File" "file_url" (PyStr (file_url job)))
                              (db_get_value "File" "file_url" (PyStr (file_url job))) ;;
         backend_write (CallDeleteDoc "File" name) (delete_doc "File" name) ;;
         backend_write CallCommit db_commit
       else ret tt
     else ret tt)
    (fun e =>
       log_error ("File deletion error: " ++ str_of_exn e)%string
                 "Excel Import File Cleanup").

(** Lines 342-345 *)
Definition completion_message (c : Counters) : string :=
  let message_ :=
    ("Import completed: " ++ str_of_int (created_count c) ++ " created, "
     ++ str_of_int (updated_count c) ++ " updated, "
     ++ str_of_int (skipped_count c) ++ " skipped")%string in
  if 0 <? error_count c
  then (message_ ++ ", " ++ str_of_int (error_count c) ++ " errors")%string
  else message_.

(** Lines 217-347: the body of the outer [try]. *)
Definition import_body : M unit :=
  df <- backend_read (CallReadExcel (file_path job)) (read_excel (file_path job)) ;;
  let total_rows := Z.of_nat (List.length (df_rows df)) in
  if total_rows <=? 0 then
    publish_progress 0 0 "No data found in Excel file" "error"
  else
    update_counters (fun _ => zero_counters) ;;
    let excel_columns := df_columns df in
    process_rows excel_columns total_rows 0 (df_rows df) ;;
    backend_write CallCommit db_commit ;;
    remove_uploaded_file ;;
    c <- get_counters ;;
    publish_progress 100 total_rows (completion_message c) "completed".

(** Lines 349-352: the handler of the outer [try]. *)
Definition import_handler (e : exn) : M unit :=
  log_error (get_traceback e) ("Excel Import Error - " ++ (doctype_name job))%string ;;
  publish_progress 0 0 ("Import failed: " ++ str_of_exn e)%string "error" ;;
  modify (fun s => with_store (with_calls s (calls s ++ [CallRollback]))
                              (db_rollback (store s))).

Definition process_excel_import : M unit :=
  set_user (user job) ;;
  try_except import_body import_handler.
End Run.
End Engine.

(** ** A reference backend

    An in-memory store to run the engine on: documents by name, the files on
    disk, the fields a document must carry to pass validation, and whether
    the database accepts a commit. *)
Record MemStore : Type := {
  records : list (string * Doc);
  committed : list (string * Doc);
  files : list (string * DataFrame);
  required_fields : list string;
  commit_ok : bool
}.

Definition with_records (st : MemStore) (r : list (string * Doc)) : MemStore :=
  {| records := r; committed := committed st; files := files st;
     required_fields := required_fields st; commit_ok := commit_ok st |}.

Definition has_doctype (doctype : string) (doc : Doc) : bool :=
  match dict_get doc "doctype" with
  | Some v => pyval_eqb v (PyStr doctype)
  | None => false
  end.

Definition field_is (field : string) (value : pyval) (doc : Doc) : bool :=
  match dict_get doc field with
  | Some v => pyval_eqb v value
  | None => false
  end.

Definition mem_get_value (doctype field : string) (value : pyval) (st : MemStore)
  : exn + option string :=
  inr (option_map fst
         (find (fun r => has_doctype doctype (snd r) && field_is field value (snd r))
               (records st))).

Definition mem_get_doc (doctype name : string) (st : MemStore) : exn + Doc :=
  match find (fun r => (fst r =? name)%string && has_doctype doctype (snd r)) (records st) with
  | Some r => inr (snd r)
  | None => inl (Exception (doctype ++ " " ++ name ++ " not found")%string)
  end.

Definition mem_new_doc (doc_data : Doc) (st : MemStore) : exn + Doc :=
  match dict_get doc_data "doctype" with
  | Some (PyStr _) => inr doc_data
  | _ => inl (Exception "Invalid doctype")
  end.

Definition mem_exists (doctype field : string) (value : pyval) (st : MemStore)
  : exn + bool :=
  inr (existsb (fun r => has_doctype doctype (snd r) && field_is field value (snd r))
               (records st)).

Definition mem_valid (doc : Doc) (st : MemStore) : bool :=
  forallb (fun f => dict_contains f doc) (required_fields st).

Definition mem_save (doc : Doc) (st : MemStore) : MemStore * (exn + unit) :=
  if mem_valid doc st then
    match dict_get doc "name" with
    | Some (PyStr name) =>
        (with_records st
           (map (fun r => if (fst r =? name)%string then (name, doc) else r) (records st)),
         inr tt)
    | _ => (st, inl (Exception "Document has no name"))
    end
  else (st, inl (Exception "MandatoryError")).

Definition mem_insert (doc : Doc) (st : MemStore) : MemStore * (exn + unit) :=
  if mem_valid doc st then
    let name := ("REC-" ++ str_of_int (Z.of_nat (List.length (records st)) + 1))%string in
    (with_records st (records st ++ [(name, dict_set doc "name" (PyStr name))]), inr tt)
  else (st, inl (Exception "MandatoryError")).

Definition mem_delete_doc (doctype : string) (name : option string) (st : MemStore)
  : MemStore * (exn + unit) :=
  match name with
  | Some n =>
      (with_records st (filter (fun r => negb (fst r =? n)%string) (records st)), inr tt)
  | None => (st, inl (Exception "DoesNotExistError"))
  end.

Definition mem_read_excel (file_path : string) (st : MemStore) : exn + DataFrame :=
  match find (fun f => (fst f =? file_path)%string) (files st) with
  | Some f => inr (snd f)
  | None => inl (Exception ("No such file: " ++ file_path)%string)
  end.

Definition mem_path_exists (file_path : string) (st : MemStore) : bool :=
  existsb (fun f => (fst f =? file_path)%string) (files st).

Definition mem_remove (file_path : string) (st : MemStore) : MemStore * (exn + unit) :=
  ({| records := records st; committed := committed st;
      files := filter (fun f => negb (fst f =? file_path)%string) (files st);
      required_fields := required_fields st; commit_ok := commit_ok st |}, inr tt).

Definition mem_commit (st : MemStore) : MemStore * (exn + unit) :=
  if commit_ok st then
    ({| records := records st; committed := records st; files := files st;
        required_fields := required_fields st; commit_ok := commit_ok st |}, inr tt)
  else (st, inl (Exception "Lost connection to the database")).

Definition mem_rollback (st : MemStore) : MemStore :=
  with_records st (committed st).

#[export] Instance MemBackend : Backend MemStore := {|
  read_excel := mem_read_excel;
  db_get_value := mem_get_value;
  get_doc := mem_get_doc;
  new_doc := mem_new_doc;
  db_exists := mem_exists;
  os_path_exists := mem_path_exists;
  doc_save := mem_save;
  doc_insert := mem_insert;
  delete_doc := mem_delete_doc;
  os_remove := mem_remove;
  db_commit := mem_commit;
  db_rollback := mem_rollback;
  get_traceback := fun e => ("Traceback: " ++ str_of_exn e)%string
|}.

Definition initial_state (st : MemStore) : @State MemStore :=
  mkState st "Administrator" [] [] [] zero_counters.

(** ** Sample data

    The mapping and the spreadsheet of the scenarios: columns Name and
    Email, mapped to title and email_addr, email_addr being the unique
    field. *)
Definition contact_mapping : dict string :=
  [("Name", "title"); ("Email", "email_addr")].

Definition contacts_sheet : DataFrame :=
  {| df_columns := ["Name"; "Email"];
     df_rows := [[Object (PyStr "Alice"); Object (PyStr "a@x.com")];
                 [Object (PyStr "Bob"); NaN]] |}.

Definition store_with (sheet : DataFrame) (docs : list (string * Doc)) : MemStore :=
  {| records := docs; committed := docs;
     files := [("/site/private/files/contacts.xlsx", sheet)];
     required_fields := []; commit_ok := true |}.

Definition alice_doc : Doc :=
  [("doctype", PyStr "Contact"); ("name", PyStr "REC-1");
   ("title", PyStr "Alice A."); ("email_addr", PyStr "a@x.com");
   ("phone", PyStr "555-0100")].

Definition contacts_job (unique : option string) (create update : Z) : Job :=
  {| doctype_name := "Contact";
     file_path := "/site/private/files/contacts.xlsx";
     field_mapping := contact_mapping;
     unique_field := unique;
     file_url := "/private/files/contacts.xlsx";
     allow_create := create;
     allow_update := update;
     user := "importer@example.com" |}.


(** ** Definitions that follow the spec's words *)

(** The spec's [H \ K]: the elements of [H] that are not in [K], in the
    order of [H]. *)
Definition list_minus (H K : list string) : list string :=
  filter (fun c => negb (list_contains c K)) H.

(** A DocType table with the two mapping-definition doctypes of the app, one
    of its business doctypes and a doctype of another module. *)
Definition sample_doctypes : list DocTypeRow :=
  [ {| dt_name := "excel_field_mapping"; dt_module := "Cipl App"; dt_istable := 0 |};
    {| dt_name := "field_mapping_child"; dt_module := "Cipl App"; dt_istable := 1 |};
    {| dt_name := "Contact"; dt_module := "Cipl App"; dt_istable := 0 |};
    {| dt_name := "User"; dt_module := "Core"; dt_istable := 0 |} ].




Definition is_update_call (c : Call) : bool :=
  match c with
  | CallGetDoc _ _ | CallSave _ => true
  | _ => false
  end.

Definition is_create_call (c : Call) : bool :=
  match c with
  | CallNewDoc _ | CallInsert _ => true
  | _ => false
  end.

Definition is_lookup_call (c : Call) : bool :=
  match c with
  | CallGetValue _ _ _ => true
  | _ => false
  end.

Definition returned {A : Type} (r : exn + A) : bool :=
  match r with
  | inr _ => true
  | inl _ => false
  end.

(** The progress event of row [idx] (0-based) of [total_rows]. *)
Definition in_progress_event (total_rows idx : Z) : ProgressEvent :=
  {| progress := progress_percent idx total_rows;
     total := total_rows;
     message := ("Processing row " ++ str_of_int (idx + 1) ++ " of "
                 ++ str_of_int total_rows)%string;
     status := "in_progress" |}.

(** The event of an empty sheet and the event of a failed run. *)
Definition no_data_event : ProgressEvent :=
  {| progress := 0; total := 0; message := "No data found in Excel file";
     status := "error" |}.

Definition failure_event (e : exn) : ProgressEvent :=
  {| progress := 0; total := 0;
     message := ("Import failed: " ++ str_of_exn e)%string;
     status := "error" |}.

Definition nondecreasing (l : list Z) : Prop := StronglySorted Z.le l.

(** Which rows of a run are processed without raising: one flag per row, the
    body of each row being run in the state the rows before it left. *)
Fixpoint row_outcomes {St : Type} {B : Backend St} (job : Job)
         (excel_columns : list string) (total_rows idx : Z)
         (rows : list (list cell)) (s : @State St) : list bool :=
  match rows with
  | [] => []
  | row :: rows' =>
      returned (snd (row_body job excel_columns total_rows idx row s))
      :: row_outcomes job excel_columns total_rows (idx + 1) rows'
           (fst (process_row job excel_columns total_rows idx row s))
  end.

(** The rows, from [idx] on, that are processed without raising and are a
    tenth row or the last one. *)
Fixpoint reported_rows (total_rows idx : Z) (outcomes : list bool) : list Z :=
  match outcomes with
  | [] => []
  | ok :: outcomes' =>
      (if ok && progress_due idx total_rows then [idx] else [])
      ++ reported_rows total_rows (idx + 1) outcomes'
  end.

Definition count_errors (outcomes : list bool) : Z :=
  Z.of_nat (List.length (filter negb outcomes)).

(** ** Milestones of a run

    The state once the sheet is read, once the rows are processed, and once
    the changes are committed, the commit having left the store [st]. *)
Section Milestones.
Context {St : Type} {B : Backend St}.
Variable job : Job.

Definition state_read (s : @State St) : @State St :=
  with_calls s (calls s ++ [CallReadExcel (file_path job)]).

Definition state_after_rows (df : DataFrame) (s : @State St) : @State St :=
  fst (process_rows job (df_columns df) (Z.of_nat (List.length (df_rows df))) 0
                    (df_rows df) (with_counters (state_read s) zero_counters)).

Definition state_committed (df : DataFrame) (s : @State St) (st : St) : @State St :=
  with_store (with_calls (state_after_rows df s)
                         (calls (state_after_rows df s) ++ [CallCommit])) st.
End Milestones.

(** ** More sample data *)

(** A sheet without rows, and a sheet whose only row has no e-mail. *)
Definition empty_sheet : DataFrame :=
  {| df_columns := ["Name"; "Email"]; df_rows := [] |}.

Definition bob_sheet : DataFrame :=
  {| df_columns := ["Name"; "Email"];
     df_rows := [[Object (PyStr "Bob"); NaN]] |}.

(** A store whose documents must carry an e-mail address, and a store whose
    database refuses the commit. *)
Definition strict_store (sheet : DataFrame) : MemStore :=
  {| records := []; committed := [];
     files := [("/site/private/files/contacts.xlsx", sheet)];
     required_fields := ["email_addr"]; commit_ok := true |}.

Definition offline_store (sheet : DataFrame) : MemStore :=
  {| records := []; committed := [];
     files := [("/site/private/files/contacts.xlsx", sheet)];
     required_fields := []; commit_ok := false |}.

(** Items keyed by a numeric code: a sheet with one item, the record of an
    item, and the import of the sheet with the code as unique field. *)
Definition items_sheet (code : Z) : DataFrame :=
  {| df_columns := ["Code"; "Label"];
     df_rows := [[NpInteger code; Object (PyStr "relabelled")]] |}.

Definition item_doc (code : Z) : Doc :=
  [("doctype", PyStr "Item"); ("name", PyStr "REC-1");
   ("code", PyInt code); ("label", PyStr "original")].

Definition items_job : Job :=
  {| doctype_name := "Item";
     file_path := "/site/private/files/contacts.xlsx";
     field_mapping := [("Code", "code"); ("Label", "label")];
     unique_field := Some "code";
     file_url := "/private/files/contacts.xlsx";
     allow_create := 1;
     allow_update := 1;
     user := "importer@example.com" |}.

(** The state a run of [job] reaches from the store [st]. *)
Definition run_on (job : Job) (st : MemStore) : @State MemStore :=
  fst (process_excel_import job (initial_state st)).


(** ** What a run adds to a log

    [grows_by P l l']: every element of [l'] is an element of [l] or
    satisfies [P]. *)
Definition grows_by {A : Type} (P : A -> Prop) (l l' : list A) : Prop :=
  forall x, In x l' -> In x l \/ P x.

(** The calls a row may make under the flags and the unique field of the
    job: a lookup needs a unique field, a get_doc or a save needs a unique
    field and allow_update, a new document or an insert needs
    allow_create. *)
Definition row_call (job : Job) (c : Call) : bool :=
  match c with
  | CallGetValue _ _ _ => str_truthy (unique_field job)
  | CallGetDoc _ _ | CallSave _ =>
      str_truthy (unique_field job) && int_truthy (allow_update job)
  | CallNewDoc _ | CallInsert _ => int_truthy (allow_create job)
  | _ => false
  end.

(** An entry of the realtime channel sent to [u] on the topic of the
    import. *)
Definition sent_to (u : string) (rt : Realtime) : Prop :=
  rt_user rt = u /\ rt_event rt = "excel_import_progress".


(** Where a value of the draft of a row comes from: the doctype the draft
    starts with, or a cell of the row that is not missing, under a column of
    the sheet that the mapping sends to the field. *)
Definition draft_origin (job : Job) (excel_columns : list string) (row : list cell)
           (field : string) (value : pyval) : Prop :=
  (field = "doctype" /\ value = PyStr (doctype_name job))
  \/ exists excel_field c,
       In (excel_field, field) (field_mapping job)
       /\ list_contains excel_field excel_columns = true
       /\ row_getitem excel_columns row excel_field = inr c
       /\ pd_notna c = true
       /\ value = to_python c.


(** ** get_unique_field (lines 199-207)

    The mapping document with its child rows and its unique field, which may
    be unset or empty; a document that cannot be loaded yields [None]. *)
Record MappingDoc : Type := {
  mapped_field : list MappingRow;
  doc_unique_field : option string
}.

Definition get_unique_field (mapping_doc : option MappingDoc) : option string :=
  match mapping_doc with
  | Some doc => if str_truthy (doc_unique_field doc) then doc_unique_field doc else None
  | None => None
  end.

(** ** validate_excel_file (lines 147-177) *)

(** [s.lstrip('/')] *)
Fixpoint lstrip_slash (s : string) : string :=
  match s with
  | String c s' => if (c =? "/")%char then lstrip_slash s' else s
  | EmptyString => s
  end.

(** [s.startswith(prefix)] *)
Definition startswith (s prefix : string) : bool := String.prefix prefix s.

Fixpoint has_slash (s : string) : bool :=
  match s with
  | String c s' => (c =? "/")%char || has_slash s'
  | EmptyString => false
  end.

Fixpoint ends_with_slash (s : string) : bool :=
  match s with
  | String c EmptyString => (c =? "/")%char
  | String _ s' => ends_with_slash s'
  | EmptyString => false
  end.

(** [os.path.join] on POSIX paths: an absolute component restarts the path,
    any other one is appended after a separator, unless the path so far is
    empty or ends with one. *)
Definition path_join2 (a b : string) : string :=
  if startswith b "/" then b
  else if (a =? "")%string || ends_with_slash a then (a ++ b)%string
  else (a ++ "/" ++ b)%string.

Definition path_join (a : string) (parts : list string) : string :=
  fold_left path_join2 parts a.

(** [os.path.basename]: what follows the last separator. *)
Fixpoint basename (p : string) : string :=
  match p with
  | EmptyString => EmptyString
  | String c p' =>
      if (c =? "/")%char then basename p'
      else if has_slash p' then basename p' else p
  end.

(** The suffix of a file name from its last dot on, if it has a dot. *)
Fixpoint from_last_dot (b : string) : option string :=
  match b with
  | EmptyString => None
  | String c b' =>
      match from_last_dot b' with
      | Some e => Some e
      | None => if (c =? ".")%char then Some b else None
      end
  end.

Fixpoint all_dots (s : string) : bool :=
  match s with
  | String c s' => (c =? ".")%char && all_dots s'
  | EmptyString => true
  end.

(** [os.path.splitext(p)[1]]: the extension starts at the last dot of the
    file name, and is empty when only dots come before that dot. *)
Definition splitext_ext (p : string) : string :=
  let b := basename p in
  match from_last_dot b with
  | Some e =>
      if all_dots (String.substring 0 (String.length b - String.length e) b)
      then "" else e
  | None => ""
  end.

(** [s.lower()], on the ASCII letters: the bytes of any other character are
    left as they are, and none of them lower-cases to a letter of an
    extension the function accepts. *)
Definition ascii_lower (c : ascii) : ascii :=
  let n := nat_of_ascii c in
  if (65 <=? n)%nat && (n <=? 90)%nat then ascii_of_nat (n + 32) else c.

Fixpoint lower (s : string) : string :=
  match s with
  | String c s' => String (ascii_lower c) (lower s')
  | EmptyString => EmptyString
  end.

Definition valid_extensions : list string := [".xlsx"; ".xls"].

Section FileResolver.
(** [frappe.get_site_path()] and [os.path.exists]. *)
Variable site_path : string.
Variable path_exists : string -> bool.

Definition validate_excel_file (file_url : string) : exn + string :=
  let file_url := lstrip_slash file_url in
  let file_path :=
    if startswith file_url "private/files/" || startswith file_url "files/"
    then path_join site_path [file_url]
    else path_join site_path ["private"; "files"; basename file_url] in
  let checked :=
    if negb (path_exists file_path) then
      let file_path := path_join site_path ["public"; "files"; basename file_url] in
      if negb (path_exists file_path)
      then inl (Exception ("File not found: " ++ file_url)%string)
      else inr file_path
    else inr file_path in
  match checked with
  | inl e => inl e
  | inr file_path =>
      let file_ext := lower (splitext_ext file_path) in
      if negb (list_contains file_ext valid_extensions)
      then inl (Exception "Invalid file format. Please upload Excel file (.xlsx or .xls)")
      else inr file_path
  end.
End FileResolver.

(** ** start_excel_import (lines 98-144) *)

(** One [frappe.enqueue(process_excel_import, queue=..., timeout=..., ...)]. *)
Record Enqueued : Type := {
  enq_queue : string;
  enq_timeout : Z;
  enq_job : Job
}.

(** What the request leaves behind: the jobs it enqueued and the errors it
    logged. *)
Record StartState : Type := {
  enqueued : list Enqueued;
  start_errors : list ErrorLog
}.

Section Start.
(** The site and its files, the stored mapping documents
    ([frappe.db.exists] and [frappe.get_doc]), the conversion [int(x)] of a
    request argument, the session user, the queue (which may refuse a job)
    and the tracebacks (of an exception, and of a failed load of the mapping
    document). *)
Variable site_path : string.
Variable path_exists : string -> bool.
Variable mapping_exists : string -> bool.
Variable load_mapping_doc : string -> option MappingDoc.
Variable py_int : pyval -> exn + Z.
Variable current_user : string.
Variable enqueue : Enqueued -> exn + unit.
Variable traceback_of : exn -> string.
Variable load_traceback : string.

(** Lines 104-135: the body of the [try], up to the job to enqueue, with
    what get_field_mapping logged on the way. *)
Definition prepare_job (doctype_name_ file_url_ : string)
           (allow_create_ allow_update_ : pyval) : list ErrorLog * (exn + Job) :=
  if (doctype_name_ =? "")%string || (file_url_ =? "")%string then
    ([], inl (Exception "Doctype name and file URL are required"))
  else if negb (mapping_exists doctype_name_) then
    ([], inl (Exception "Please map fields first for this doctype"))
  else
    match validate_excel_file site_path path_exists file_url_ with
    | inl e => ([], inl e)
    | inr file_path_ =>
        let (field_mapping_, logged) :=
          get_field_mapping load_traceback
            (option_map mapped_field (load_mapping_doc doctype_name_)) in
        let unique_field_ := get_unique_field (load_mapping_doc doctype_name_) in
        match field_mapping_ with
        | [] =>
            (logged,
             inl (Exception ("No field mappings found for " ++ doctype_name_)%string))
        | _ :: _ =>
            match py_int allow_create_ with
            | inl e => (logged, inl e)
            | inr create =>
                match py_int allow_update_ with
                | inl e => (logged, inl e)
                | inr update =>
                    (logged,
                     inr {| doctype_name := doctype_name_;
                            file_path := file_path_;
                            field_mapping := field_mapping_;
                            unique_field := unique_field_;
                            file_url := file_url_;
                            allow_create := create;
                            allow_update := update;
                            user := current_user |})
                end
            end
        end
    end.

Definition start_excel_import (doctype_name_ file_url_ : string)
           (allow_create_ allow_update_ : pyval) (st : StartState)
  : StartState * (exn + string) :=
  let (logged, prepared) :=
    prepare_job doctype_name_ file_url_ allow_create_ allow_update_ in
  let attempt :=
    match prepared with
    | inl e => inl e
    | inr job =>
        let item := {| enq_queue := "long"; enq_timeout := 3000; enq_job := job |} in
        match enqueue item with
        | inl e => inl e
        | inr _ => inr item
        end
    end in
  match attempt with
  | inr item =>
      ({| enqueued := enqueued st ++ [item];
          start_errors := start_errors st ++ logged |},
       inr "Import started successfully")
  | inl e =>
      ({| enqueued := enqueued st;
          start_errors := start_errors st ++ logged
                          ++ [{| log_message := traceback_of e;
                                 log_title := "Excel Import Start Error" |}] |},
       inl (Exception (str_of_exn e)))
  end.
End Start.

(** ** Sample site *)

Definition sample_site_exists (p : string) : bool :=
  (p =? "/site/private/files/contacts.xlsx")%string
  || (p =? "/site/public/files/Prices.XLS")%string
  || (p =? "/site/private/files/notes.txt")%string.

Definition contacts_mapping_doc : MappingDoc :=
  {| mapped_field := [ {| excel_field_name := "Name"; doctype_field_name := "title" |};
                       {| excel_field_name := "Email"; doctype_field_name := "email_addr" |} ];
     doc_unique_field := Some "email_addr" |}.

Definition int_of_flag (v : pyval) : exn + Z :=
  match v with
  | PyInt z => inr z
  | PyBool b => inr (if b then 1 else 0)
  | _ => inl (Exception "invalid literal for int()")
  end.


(** The two places a file reference (without its leading separators) is
    looked for under the site. *)
Definition primary_candidate (site_path file_url : string) : string :=
  if startswith file_url "private/files/" || startswith file_url "files/"
  then path_join site_path [file_url]
  else path_join site_path ["private"; "files"; basename file_url].

Definition public_candidate (site_path file_url : string) : string :=
  path_join site_path ["public"; "files"; basename file_url].

Definition accepted_extension (file_path_ : string) : bool :=
  list_contains (lower (splitext_ext file_path_)) valid_extensions.


(** The mapping documents of the sample site, a queue that accepts every
    job, and a request that has left nothing behind yet. *)
Definition sample_mapping_exists (doctype : string) : bool :=
  (doctype =? "Contact")%string.

Definition sample_load_mapping_doc (doctype : string) : option MappingDoc :=
  if (doctype =? "Contact")%string then Some contacts_mapping_doc else None.

Definition accept_job (item : Enqueued) : exn + unit := inr tt.

Definition fresh_request : StartState := {| enqueued := []; start_errors := [] |}.

Definition start_on_sample_site (doctype_name_ file_url_ : string)
           (allow_create_ allow_update_ : pyval) : StartState * (exn + string) :=
  start_excel_import "/site" sample_site_exists sample_mapping_exists
                     sample_load_mapping_doc int_of_flag "importer@example.com"
                     accept_job str_of_exn "DoesNotExistError"
                     doctype_name_ file_url_ allow_create_ allow_update_ fresh_request.

(* ================================================================== *)
(** * Part II: lemmas and theorems *)
(* ================================================================== *)

(** ** Binary64 rounding is monotone

    Rounding to nearest never reverses the order of two non-negative
    rationals: within one binade the significands are ordered, and across
    binades the smaller value rounds to at most the power of two that
    separates them. *)
Module Binary64Facts.
Local Open Scope Q_scope.

Lemma pow2_pos (e : Z) : 0 < 2 ^ e.
Proof. apply Qpower_0_lt. reflexivity. Qed.

Lemma pow2_le (a b : Z) : (a <= b)%Z -> 2 ^ a <= 2 ^ b.
Proof. intros H. apply Qpower_le_compat_l; [exact H | discriminate]. Qed.

Lemma pow2_lt (a b : Z) : (a < b)%Z -> 2 ^ a < 2 ^ b.
Proof. intros H. apply Qpower_lt_compat_l; [exact H | reflexivity]. Qed.

Lemma pow2_inject (k : Z) : (0 <= k)%Z -> 2 ^ k == inject_Z (2 ^ k).
Proof. intros H. symmetry. apply (Zpower_Qpower 2 k H). Qed.

Lemma pow2_sub (a b : Z) :
  (0 <= a)%Z -> (0 <= b)%Z -> 2 ^ (a - b) == inject_Z (2 ^ a) / inject_Z (2 ^ b).
Proof.
  intros Ha Hb. rewrite Qpower_minus by discriminate.
  rewrite (pow2_inject a Ha), (pow2_inject b Hb). reflexivity.
Qed.

Lemma ilog2_rough (x : Q) :
  0 < x ->
  let l := (Z.log2 (Qnum x) - Z.log2 (Zpos (Qden x)))%Z in
  2 ^ (l - 1) <= x /\ x < 2 ^ (l + 1).
Proof.
  intros Hx l. destruct x as [n d]. unfold Qlt in Hx. cbn [Qnum Qden] in Hx, l.
  assert (Hn : (0 < n)%Z) by lia.
  pose proof (Z.log2_spec n Hn) as [Hn1 Hn2].
  pose proof (Z.log2_spec (Zpos d) (Pos2Z.is_pos d)) as [Hd1 Hd2].
  pose proof (Z.log2_nonneg n) as Hln.
  pose proof (Z.log2_nonneg (Zpos d)) as Hld.
  set (ln := Z.log2 n) in *. set (ld := Z.log2 (Zpos d)) in *.
  assert (Hp1 : (0 < 2 ^ ln)%Z) by (apply Z.pow_pos_nonneg; lia).
  assert (Hp2 : (0 < 2 ^ ld)%Z) by (apply Z.pow_pos_nonneg; lia).
  split.
  - replace (l - 1)%Z with (ln - Z.succ ld)%Z by (unfold l; lia).
    rewrite pow2_sub by lia.
    apply Qle_shift_div_r.
    + unfold Qlt; simpl. lia.
    + unfold Qle, Qmult, inject_Z; simpl. nia.
  - replace (l + 1)%Z with (Z.succ ln - ld)%Z by (unfold l; lia).
    rewrite pow2_sub by lia.
    apply Qlt_shift_div_l.
    + unfold Qlt; simpl. lia.
    + unfold Qlt, Qmult, inject_Z; simpl. nia.
Qed.

Lemma ilog2_spec (x : Q) : 0 < x -> 2 ^ ilog2 x <= x /\ x < 2 ^ (ilog2 x + 1).
Proof.
  intros Hx. destruct (ilog2_rough x Hx) as [Hlo Hhi]. unfold ilog2.
  set (l := (Z.log2 (Qnum x) - Z.log2 (Zpos (Qden x)))%Z) in *.
  destruct (Qle_bool (2 ^ l) x) eqn:E.
  - apply Qle_bool_iff in E. split; assumption.
  - split; [exact Hlo|].
    replace (l - 1 + 1)%Z with l by lia.
    apply Qnot_le_lt. intros H. apply Qle_bool_iff in H. congruence.
Qed.

Lemma ilog2_mono (x y : Q) : 0 < x -> x <= y -> (ilog2 x <= ilog2 y)%Z.
Proof.
  intros Hx Hxy.
  assert (Hy : 0 < y) by (eapply Qlt_le_trans; eassumption).
  destruct (ilog2_spec x Hx) as [Hx1 _]. destruct (ilog2_spec y Hy) as [_ Hy2].
  destruct (Z.le_gt_cases (ilog2 x) (ilog2 y)) as [H|H]; [exact H|exfalso].
  assert (H1 : 2 ^ (ilog2 y + 1) <= 2 ^ ilog2 x) by (apply pow2_le; lia).
  apply (Qlt_irrefl y).
  eapply Qlt_le_trans; [exact Hy2|].
  eapply Qle_trans; [exact H1|]. eapply Qle_trans; eassumption.
Qed.

Lemma float_exp_mono (x y : Q) : 0 < x -> x <= y -> (float_exp x <= float_exp y)%Z.
Proof. intros Hx Hxy. pose proof (ilog2_mono x y Hx Hxy). unfold float_exp. lia. Qed.

Lemma round_half_even_floor (y : Q) :
  (Qfloor y <= round_half_even y <= Qfloor y + 1)%Z.
Proof.
  unfold round_half_even.
  destruct (Qcompare (y - inject_Z (Qfloor y)) (1 # 2)); try destruct (Z.even (Qfloor y)); lia.
Qed.

Lemma round_half_even_Z (z : Z) : round_half_even (inject_Z z) = z.
Proof.
  unfold round_half_even. rewrite Qfloor_Z.
  assert (H : inject_Z z - inject_Z z == 0) by ring.
  destruct (Qcompare_spec (inject_Z z - inject_Z z) (1 # 2)) as [E|E|E].
  - rewrite H in E. discriminate.
  - reflexivity.
  - rewrite H in E. discriminate.
Qed.

Lemma round_half_even_mono (a b : Q) : a <= b -> (round_half_even a <= round_half_even b)%Z.
Proof.
  intros Hab. pose proof (Qfloor_resp_le a b Hab) as Hf.
  pose proof (round_half_even_floor a). pose proof (round_half_even_floor b).
  destruct (Z.eq_dec (Qfloor a) (Qfloor b)) as [E|E]; [|lia].
  unfold round_half_even. rewrite E.
  assert (Hr : a - inject_Z (Qfloor b) <= b - inject_Z (Qfloor b)).
  { apply Qplus_le_l with (z := inject_Z (Qfloor b)). ring_simplify. exact Hab. }
  destruct (Qcompare_spec (a - inject_Z (Qfloor b)) (1 # 2)) as [Ea|Ea|Ea];
  destruct (Qcompare_spec (b - inject_Z (Qfloor b)) (1 # 2)) as [Eb|Eb|Eb];
  try destruct (Z.even (Qfloor b)); try lia; exfalso; lra.
Qed.

Lemma round_binary64_pos (x : Q) :
  0 < x -> round_binary64 x = inject_Z (significand x) * 2 ^ float_exp x.
Proof.
  intros Hx. unfold round_binary64.
  destruct (Qcompare_spec 0 x) as [E|E|E]; [|reflexivity|]; exfalso; lra.
Qed.

Lemma scaled_lt (x : Q) : 0 < x -> x / 2 ^ float_exp x < 2 ^ 53.
Proof.
  intros Hx. destruct (ilog2_spec x Hx) as [_ Hhi].
  apply Qlt_shift_div_r; [apply pow2_pos|].
  rewrite <- Qpower_plus by discriminate.
  eapply Qlt_le_trans; [exact Hhi|]. apply pow2_le. unfold float_exp. lia.
Qed.

Lemma scaled_ge (x : Q) :
  0 < x -> (-1074 < float_exp x)%Z -> 2 ^ 52 <= x / 2 ^ float_exp x.
Proof.
  intros Hx He. destruct (ilog2_spec x Hx) as [Hlo _].
  apply Qle_shift_div_l; [apply pow2_pos|].
  rewrite <- Qpower_plus by discriminate.
  eapply Qle_trans; [|exact Hlo]. apply pow2_le. unfold float_exp in *. lia.
Qed.

Lemma significand_le (x : Q) : 0 < x -> (significand x <= 2 ^ 53)%Z.
Proof.
  intros Hx. unfold significand.
  rewrite <- (round_half_even_Z (2 ^ 53)). apply round_half_even_mono.
  rewrite <- pow2_inject by lia. apply Qlt_le_weak, scaled_lt, Hx.
Qed.

Lemma significand_ge (x : Q) :
  0 < x -> (-1074 < float_exp x)%Z -> (2 ^ 52 <= significand x)%Z.
Proof.
  intros Hx He. unfold significand.
  rewrite <- (round_half_even_Z (2 ^ 52)). apply round_half_even_mono.
  rewrite <- pow2_inject by lia. apply scaled_ge; assumption.
Qed.

Lemma significand_nonneg (x : Q) : 0 < x -> (0 <= significand x)%Z.
Proof.
  intros Hx. unfold significand.
  rewrite <- (round_half_even_Z 0). apply round_half_even_mono.
  apply Qlt_le_weak, Qlt_shift_div_l; [apply pow2_pos|].
  change (inject_Z 0) with 0. rewrite Qmult_0_l. exact Hx.
Qed.

Lemma round_binary64_nonneg (x : Q) : 0 <= x -> 0 <= round_binary64 x.
Proof.
  intros Hx. unfold round_binary64.
  destruct (Qcompare_spec 0 x) as [E|E|E]; [lra| |exfalso; lra].
  apply Qmult_le_0_compat; [|apply Qlt_le_weak, pow2_pos].
  change 0 with (inject_Z 0). rewrite <- Zle_Qle. apply (significand_nonneg x E).
Qed.

Lemma round_binary64_mono_pos (x y : Q) :
  0 < x -> x <= y -> round_binary64 x <= round_binary64 y.
Proof.
  intros Hx Hxy.
  assert (Hy : 0 < y) by lra.
  rewrite (round_binary64_pos x Hx), (round_binary64_pos y Hy).
  pose proof (float_exp_mono x y Hx Hxy) as He.
  destruct (Z.eq_dec (float_exp x) (float_exp y)) as [E|E].
  - unfold significand. rewrite E.
    apply Qmult_le_compat_r; [|apply Qlt_le_weak, pow2_pos].
    rewrite <- Zle_Qle. apply round_half_even_mono.
    apply Qmult_le_compat_r; [exact Hxy|].
    apply Qlt_le_weak, Qinv_lt_0_compat, pow2_pos.
  - assert (Hny : (-1074 < float_exp y)%Z) by (unfold float_exp in *; lia).
    pose proof (significand_le x Hx) as Hsx.
    pose proof (significand_ge y Hy Hny) as Hsy.
    apply Qle_trans with (2 ^ 53 * 2 ^ float_exp x).
    + apply Qmult_le_compat_r; [|apply Qlt_le_weak, pow2_pos].
      rewrite pow2_inject by lia. rewrite <- Zle_Qle. exact Hsx.
    + apply Qle_trans with (2 ^ 52 * 2 ^ float_exp y).
      * rewrite <- !Qpower_plus by discriminate. apply pow2_le. lia.
      * apply Qmult_le_compat_r; [|apply Qlt_le_weak, pow2_pos].
        rewrite pow2_inject by lia. rewrite <- Zle_Qle. exact Hsy.
Qed.

Lemma round_binary64_mono (x y : Q) :
  0 <= x -> x <= y -> round_binary64 x <= round_binary64 y.
Proof.
  intros Hx Hxy. destruct (Qlt_le_dec 0 x) as [H|H].
  - apply round_binary64_mono_pos; assumption.
  - assert (E : round_binary64 x = 0).
    { unfold round_binary64. destruct (Qcompare_spec 0 x) as [E|E|E]; [reflexivity| |]; exfalso; lra. }
    rewrite E. apply round_binary64_nonneg. lra.
Qed.

Lemma round_binary64_compat (x y : Q) :
  0 <= x -> x == y -> round_binary64 x == round_binary64 y.
Proof.
  intros Hx E. apply Qle_antisym; apply round_binary64_mono; lra.
Qed.

Lemma int_of_float_nonneg (x : Q) : 0 <= x -> int_of_float x = Qfloor x.
Proof.
  intros Hx. unfold int_of_float. apply Qle_bool_iff in Hx. rewrite Hx. reflexivity.
Qed.

Lemma ratio_nonneg (a b : Z) : (0 <= a)%Z -> (0 < b)%Z -> 0 <= inject_Z a / inject_Z b.
Proof.
  intros Ha Hb. apply Qle_shift_div_l.
  - change 0 with (inject_Z 0). rewrite <- Zlt_Qlt. exact Hb.
  - rewrite Qmult_0_l. change 0 with (inject_Z 0). rewrite <- Zle_Qle. exact Ha.
Qed.

Lemma ratio_mono (a a' b : Z) :
  (a <= a')%Z -> (0 < b)%Z -> inject_Z a / inject_Z b <= inject_Z a' / inject_Z b.
Proof.
  intros Ha Hb. apply Qmult_le_compat_r.
  - rewrite <- Zle_Qle. exact Ha.
  - apply Qlt_le_weak, Qinv_lt_0_compat. change 0 with (inject_Z 0). rewrite <- Zlt_Qlt. exact Hb.
Qed.

Lemma scaled_ratio_nonneg (idx total_rows : Z) :
  (0 <= idx)%Z -> (0 < total_rows)%Z ->
  0 <= float_mul (float_truediv (idx + 1) total_rows) 100.
Proof.
  intros Hi Ht. unfold float_mul. apply round_binary64_nonneg.
  apply Qmult_le_0_compat; [|discriminate].
  apply round_binary64_nonneg, ratio_nonneg; lia.
Qed.

Lemma progress_percent_mono (i j total_rows : Z) :
  (0 <= i <= j)%Z -> (0 < total_rows)%Z ->
  (progress_percent i total_rows <= progress_percent j total_rows)%Z.
Proof.
  intros Hij Ht. unfold progress_percent.
  rewrite !int_of_float_nonneg by (apply scaled_ratio_nonneg; lia).
  apply Qfloor_resp_le. unfold float_mul, float_truediv.
  assert (Hq : 0 <= round_binary64 (inject_Z (i + 1) / inject_Z total_rows)).
  { apply round_binary64_nonneg, ratio_nonneg; lia. }
  apply round_binary64_mono.
  - apply Qmult_le_0_compat; [exact Hq|discriminate].
  - apply Qmult_le_compat_r; [|discriminate].
    apply round_binary64_mono; [apply ratio_nonneg; lia|apply ratio_mono; lia].
Qed.

Lemma round_binary64_one : round_binary64 1 == 1.
Proof. vm_compute. reflexivity. Qed.

Lemma round_binary64_hundred : round_binary64 (1 * 100) == 100.
Proof. vm_compute. reflexivity. Qed.

Lemma float_truediv_same (n : Z) : (0 < n)%Z -> float_truediv n n == 1.
Proof.
  intros Hn. unfold float_truediv.
  rewrite (round_binary64_compat (inject_Z n / inject_Z n) 1).
  - exact round_binary64_one.
  - apply ratio_nonneg; lia.
  - apply Qmult_inv_r. intros H.
    apply (Qlt_irrefl 0). rewrite <- H at 2.
    change 0 with (inject_Z 0) at 1. rewrite <- Zlt_Qlt. exact Hn.
Qed.

Lemma progress_percent_last (total_rows : Z) :
  (0 < total_rows)%Z -> progress_percent (total_rows - 1) total_rows = 100%Z.
Proof.
  intros Ht. unfold progress_percent.
  rewrite int_of_float_nonneg by (apply scaled_ratio_nonneg; lia).
  replace (total_rows - 1 + 1)%Z with total_rows by lia.
  pose proof (float_truediv_same total_rows Ht) as E1.
  assert (E2 : float_mul (float_truediv total_rows total_rows) 100 == 100).
  { unfold float_mul.
    rewrite (round_binary64_compat (float_truediv total_rows total_rows * 100) (1 * 100)).
    - exact round_binary64_hundred.
    - rewrite E1. discriminate.
    - rewrite E1. reflexivity. }
  rewrite E2. reflexivity.
Qed.

Lemma progress_percent_bounds (idx total_rows : Z) :
  (0 <= idx < total_rows)%Z -> (0 <= progress_percent idx total_rows <= 100)%Z.
Proof.
  intros H. split.
  - unfold progress_percent.
    rewrite int_of_float_nonneg by (apply scaled_ratio_nonneg; lia).
    rewrite <- (Qfloor_Z 0). apply Qfloor_resp_le.
    apply scaled_ratio_nonneg; lia.
  - rewrite <- (progress_percent_last total_rows) by lia.
    apply progress_percent_mono; lia.
Qed.

End Binary64Facts.

(** The rational model against the machine's binary64 unit, on every row of
    every sheet of up to 60 rows, and on a row where rounding shows: row 290
    of 1000 reports 28 percent, the exact quotient being 29. *)
Example percent_agrees_with_machine :
  forallb (fun n =>
    forallb (fun i =>
      match machine_percent (Z.of_nat i) (Z.of_nat n) with
      | Some p => p =? progress_percent (Z.of_nat i) (Z.of_nat n)
      | None => false
      end) (seq 0 n)) (seq 1 60) = true.
Proof. vm_compute. reflexivity. Qed.

Example percent_row_290_of_1000 :
  progress_percent 289 1000 = 28 /\ machine_percent 289 1000 = Some 28
  /\ (289 + 1) * 100 / 1000 = 29.
Proof. vm_compute. repeat split; reflexivity. Qed.

(** ** Dictionaries and lists *)

Lemma list_contains_In (x : string) (l : list string) :
  list_contains x l = true <-> In x l.
Proof.
  unfold list_contains. rewrite existsb_exists. split.
  - intros [y [Hy E]]. apply String.eqb_eq in E. subst y. exact Hy.
  - intros H. exists x. split; [exact H | apply String.eqb_refl].
Qed.

Lemma dict_get_None_keys {V : Type} (d : dict V) (k : string) :
  dict_get d k = None <-> ~ In k (dict_keys d).
Proof.
  induction d as [|[k' v] d IH]; simpl.
  - split; [intros _ H; exact H | reflexivity].
  - destruct (String.eqb_spec k' k) as [E|E].
    + split; [discriminate | intros H; exfalso; apply H; left; exact E].
    + rewrite IH. split.
      * intros H [H1|H1]; [exact (E H1) | exact (H H1)].
      * intros H H1. apply H. right. exact H1.
Qed.

Lemma dict_contains_keys {V : Type} (d : dict V) (k : string) :
  dict_contains k d = list_contains k (dict_keys d).
Proof.
  unfold dict_contains. destruct (dict_get d k) eqn:E.
  - symmetry. apply list_contains_In.
    destruct (in_dec string_dec k (dict_keys d)) as [H|H]; [exact H|].
    apply dict_get_None_keys in H. congruence.
  - apply dict_get_None_keys in E.
    destruct (list_contains k (dict_keys d)) eqn:E'; [|reflexivity].
    apply list_contains_In in E'. contradiction.
Qed.

Lemma dict_get_set_same {V : Type} (d : dict V) (k : string) (v : V) :
  dict_get (dict_set d k v) k = Some v.
Proof.
  induction d as [|[k' v'] d IH]; simpl.
  - rewrite String.eqb_refl. reflexivity.
  - destruct (String.eqb_spec k' k) as [E|E]; simpl.
    + rewrite String.eqb_refl. reflexivity.
    + destruct (String.eqb_spec k' k); [contradiction | exact IH].
Qed.

Lemma dict_get_set_other {V : Type} (d : dict V) (k k' : string) (v : V) :
  k <> k' -> dict_get (dict_set d k v) k' = dict_get d k'.
Proof.
  intros Hk. induction d as [|[k0 v0] d IH]; simpl.
  - destruct (String.eqb_spec k k'); [contradiction | reflexivity].
  - destruct (String.eqb_spec k0 k) as [E|E]; simpl.
    + subst k0. destruct (String.eqb_spec k k'); [contradiction | reflexivity].
    + destruct (String.eqb_spec k0 k'); [reflexivity | exact IH].
Qed.

Lemma filter_split_Permutation {A : Type} (f : A -> bool) (l : list A) :
  Permutation (filter f l ++ filter (fun x => negb (f x)) l) l.
Proof.
  induction l as [|a l IH]; simpl.
  - constructor.
  - destruct (f a); simpl.
    + constructor. exact IH.
    + apply Permutation_sym, Permutation_cons_app, Permutation_sym, IH.
Qed.

(** ** The preview *)

(** C3: the mapped fields and the fields missing in the sheet partition the
    keys of the mapping (every key is in exactly one of the two lists, and
    the two lists together are a permutation of the keys); the missing
    fields are the headers that are no key of the mapping; has_missing tells
    whether one of the two lists of missing names is non-empty. *)
Theorem preview_partitions_mapping_keys :
  forall (M : dict string) (H : list string),
    let p := preview_of M H in
    (forall k, In k (mapped_fields p) \/ In k (missing_in_excel p) <-> In k (dict_keys M))
    /\ (forall k, ~ (In k (mapped_fields p) /\ In k (missing_in_excel p)))
    /\ Permutation (mapped_fields p ++ missing_in_excel p) (dict_keys M)
    /\ missing_fields p = list_minus H (dict_keys M)
    /\ (forall c, In c (missing_fields p) <-> In c H /\ ~ In c (dict_keys M))
    /\ (has_missing p = true <-> missing_fields p <> [] \/ missing_in_excel p <> []).
Proof.
  intros M H p.
  assert (Hperm : Permutation (mapped_fields p ++ missing_in_excel p) (dict_keys M)).
  { apply (filter_split_Permutation (fun k => list_contains k H)). }
  assert (Hminus : missing_fields p = list_minus H (dict_keys M)).
  { unfold p, preview_of, list_minus; simpl. apply filter_ext.
    intros c. rewrite dict_contains_keys. reflexivity. }
  split; [|split; [|split; [|split; [|split]]]].
  - intros k. split.
    + intros Hk. apply (Permutation_in _ Hperm). apply in_or_app. exact Hk.
    + intros Hk. apply in_app_or.
      apply (Permutation_in _ (Permutation_sym Hperm)). exact Hk.
  - intros k [H1 H2]. unfold p, preview_of in H1, H2; simpl in H1, H2.
    apply filter_In in H1. apply filter_In in H2.
    destruct H1 as [_ H1]. destruct H2 as [_ H2]. rewrite H1 in H2. discriminate.
  - exact Hperm.
  - exact Hminus.
  - intros c. rewrite Hminus. unfold list_minus. rewrite filter_In. split.
    + intros [H1 H2]. split; [exact H1|].
      intros Hin. apply list_contains_In in Hin. rewrite Hin in H2. discriminate.
    + intros [H1 H2]. split; [exact H1|].
      destruct (list_contains c (dict_keys M)) eqn:E; [|reflexivity].
      apply list_contains_In in E. contradiction.
  - unfold p, preview_of; simpl. rewrite orb_true_iff. split.
    + intros [Hm|Hm]; [left|right]; intros E; rewrite E in Hm; discriminate.
    + intros [Hm|Hm]; [left|right];
        match goal with
        | |- (0 <? Z.of_nat (List.length ?l)) = true =>
            destruct l; [contradiction | reflexivity]
        end.
Qed.

(** ** The doctype query *)

Lemma insert_by_name_In (row x : DocTypeRow) (l : list DocTypeRow) :
  In x (insert_by_name row l) -> x = row \/ In x l.
Proof.
  induction l as [|r l IH]; simpl.
  - intros [H|[]]. left. symmetry. exact H.
  - destruct (String.leb (dt_name row) (dt_name r)); simpl.
    + intros [H|H]; [left; symmetry; exact H | right; exact H].
    + intros [H|H]; [right; left; exact H|].
      destruct (IH H) as [H'|H']; [left; exact H' | right; right; exact H'].
Qed.

Lemma order_by_name_In (x : DocTypeRow) (l : list DocTypeRow) :
  In x (order_by_name l) -> In x l.
Proof.
  induction l as [|r l IH]; simpl; [intros []|].
  intros H. apply insert_by_name_In in H.
  destruct H as [H|H]; [left; symmetry; exact H | right; exact (IH H)].
Qed.

Lemma In_firstn {A : Type} (n : nat) (l : list A) (x : A) :
  In x (firstn n l) -> In x l.
Proof.
  intros H. rewrite <- (firstn_skipn n l). apply in_or_app. left. exact H.
Qed.

Lemma In_skipn {A : Type} (n : nat) (l : list A) (x : A) :
  In x (skipn n l) -> In x l.
Proof.
  intros H. rewrite <- (firstn_skipn n l). apply in_or_app. right. exact H.
Qed.

Lemma get_all_In (table : list DocTypeRow) (filters : dict FilterCond)
      (limit_start limit_page_length : nat) (x : DocTypeRow) :
  In x (get_all table filters limit_start limit_page_length) ->
  In x table /\ forallb (fun kc => cond_holds x (fst kc) (snd kc)) filters = true.
Proof.
  unfold get_all. intros H.
  destruct limit_page_length as [|n].
  - apply order_by_name_In in H. apply filter_In in H. exact H.
  - apply In_firstn, In_skipn, order_by_name_In in H.
    apply filter_In in H. exact H.
Qed.

(** With an empty search text the exclusion filter is in force: neither
    mapping-definition doctype is returned, whatever the table and the
    window. *)
Lemma no_search_text_excludes_mapping_doctypes
      (table : list DocTypeRow) (start page_len : nat) (name : string) :
  In [name] (get_cipl_app_doctypes table "" start page_len) ->
  ~ In name excluded_doctypes.
Proof.
  intros H Hin. apply list_contains_In in Hin.
  unfold get_cipl_app_doctypes in H. simpl in H.
  apply in_map_iff in H. destruct H as [d [E H]].
  injection E as E. subst name.
  apply get_all_In in H. destruct H as [_ H]. simpl in H.
  rewrite !andb_true_iff in H. destruct H as [_ [_ [H _]]].
  unfold cond_holds in H. simpl in H, Hin.
  rewrite Hin in H. discriminate.
Qed.

(** C7: with the search text "excel" the query returns the mapping-definition
    doctype excel_field_mapping: the 'like' filter is stored under the key
    'name' and replaces the 'not in' filter that excluded it. *)
Theorem search_text_returns_excluded_doctype :
  get_cipl_app_doctypes sample_doctypes "excel" 0 20 = [["excel_field_mapping"]]
  /\ In "excel_field_mapping" excluded_doctypes
  /\ get_cipl_app_doctypes sample_doctypes "" 0 20 = [["Contact"]].
Proof. vm_compute. repeat split. left. reflexivity. Qed.


(** ** Order of the reported rows and of their percentages *)

Lemma reported_rows_sorted (total_rows : Z) (outcomes : list bool) :
  forall idx : Z,
    StronglySorted Z.lt (reported_rows total_rows idx outcomes)
    /\ Forall (fun i => idx <= i < idx + Z.of_nat (List.length outcomes))
              (reported_rows total_rows idx outcomes).
Proof.
  induction outcomes as [|ok outcomes IH]; intros idx; cbn [reported_rows].
  - split; constructor.
  - destruct (IH (idx + 1)) as [IH1 IH2].
    assert (Hrest : Forall (fun i => idx < i < idx + Z.of_nat (List.length (ok :: outcomes)))
                           (reported_rows total_rows (idx + 1) outcomes)).
    { eapply Forall_impl; [|exact IH2]. cbn [List.length]. intros i Hi. cbv beta in Hi |- *.
      rewrite Nat2Z.inj_succ. lia. }
    destruct (ok && progress_due idx total_rows); cbn [app].
    + split.
      * constructor; [exact IH1|]. eapply Forall_impl; [|exact Hrest].
        intros i Hi. cbv beta in Hi |- *. lia.
      * constructor.
        -- cbn [List.length]. rewrite Nat2Z.inj_succ. lia.
        -- eapply Forall_impl; [|exact Hrest]. intros i Hi. cbv beta in Hi |- *. lia.
    + split; [exact IH1|]. eapply Forall_impl; [|exact Hrest]. intros i Hi. cbv beta in Hi |- *. lia.
Qed.

Lemma percents_nondecreasing (total_rows : Z) (rows : list Z) :
  0 < total_rows ->
  StronglySorted Z.lt rows ->
  Forall (fun i => 0 <= i < total_rows) rows ->
  nondecreasing (map progress (map (in_progress_event total_rows) rows))
  /\ Forall (fun p => 0 <= p <= 100) (map progress (map (in_progress_event total_rows) rows)).
Proof.
  intros Ht Hs Hb. unfold nondecreasing. rewrite map_map. cbn [progress in_progress_event].
  induction Hs as [|i rows Hs IH Hi]; cbn [map].
  - split; constructor.
  - inversion Hb as [|? ? Hb1 Hb2]; subst.
    destruct (IH Hb2) as [IH1 IH2]. split.
    + constructor; [exact IH1|].
      apply Forall_map. rewrite Forall_forall in Hi, Hb2 |- *.
      intros j Hj. specialize (Hi j Hj). specialize (Hb2 j Hj).
      apply Binary64Facts.progress_percent_mono; lia.
    + constructor; [|exact IH2].
      apply Binary64Facts.progress_percent_bounds. exact Hb1.
Qed.



(** ** Keys of a dictionary under assignment *)

Lemma dict_set_keys_In {V : Type} (d : dict V) (k k' : string) (v : V) :
  In k' (dict_keys (dict_set d k v)) <-> k' = k \/ In k' (dict_keys d).
Proof.
  induction d as [|[k0 v0] d IH]; simpl.
  - split; [intros [H|[]]; left; symmetry; exact H | intros [H|[]]; left; symmetry; exact H].
  - destruct (String.eqb_spec k0 k) as [E|E]; simpl.
    + subst k0. split; [intros [H|H]; [left; symmetry; exact H | right; right; exact H]
                       | intros [H|[H|H]]; [left; symmetry; exact H | left; exact H | right; exact H]].
    + unfold dict_keys in IH. rewrite IH. tauto.
Qed.

Lemma dict_set_keys_NoDup {V : Type} (d : dict V) (k : string) (v : V) :
  NoDup (dict_keys d) -> NoDup (dict_keys (dict_set d k v)).
Proof.
  induction d as [|[k0 v0] d IH]; simpl; intros Hd.
  - constructor; [intros [] | constructor].
  - inversion Hd as [|? ? Hn Hd']; subst.
    destruct (String.eqb_spec k0 k) as [E|E]; simpl.
    + subst k0. constructor; assumption.
    + constructor; [|exact (IH Hd')].
      intros Hin. apply (dict_set_keys_In d k k0 v) in Hin.
      destruct Hin as [Hin|Hin]; [exact (E Hin) | exact (Hn Hin)].
Qed.

Lemma dict_get_Some_In {V : Type} (d : dict V) (k : string) (v : V) :
  dict_get d k = Some v -> In k (dict_keys d).
Proof.
  intros H. destruct (in_dec string_dec k (dict_keys d)) as [Hin|Hin]; [exact Hin|].
  apply dict_get_None_keys in Hin. congruence.
Qed.

(** ** The fields written by an update *)




Section DraftFacts.
Variable job : Job.


End DraftFacts.

(** ** The import engine *)

Section EngineFacts.
Context {St : Type} {B : Backend St}.
Variable job : Job.

(** *** What each block does to the counters, the calls and the events *)

Lemma find_existing_effect (unique_value : pyval) (s : @State St) :
  let r := find_existing job unique_value s in
  counters (fst r) = counters s
  /\ realtime (fst r) = realtime s
  /\ error_log (fst r) = error_log s
  /\ store (fst r) = store s
  /\ session_user (fst r) = session_user s.
Proof.
  unfold find_existing, backend_read, ret.
  destruct (str_truthy (unique_field job) && py_truthy unique_value); simpl; auto.
Qed.

Lemma update_existing_effect (name : string) (doc_data : Doc) (s : @State St) :
  let r := update_existing job name doc_data s in
  realtime (fst r) = realtime s
  /\ error_log (fst r) = error_log s
  /\ session_user (fst r) = session_user s
  /\ counters (fst r)
     = (if returned (snd r) then count_updated (counters s) else counters s)
  /\ exists l, calls (fst r) = calls s ++ l /\ forallb is_update_call l = true
               /\ (returned (snd r) = true -> exists d, l = [CallGetDoc (doctype_name job) name; CallSave d]).
Proof.
  unfold update_existing, bind, backend_read, backend_write, update_counters, modify.
  simpl. destruct (get_doc (doctype_name job) name (store s)) as [e|doc]; simpl.
  - repeat split; try reflexivity.
    exists [CallGetDoc (doctype_name job) name]. repeat split; [discriminate].
  - destruct (doc_save (set_fields doc doc_data) (store s)) as [st' [e|[]]]; simpl.
    + repeat split; try reflexivity.
      exists [CallGetDoc (doctype_name job) name; CallSave (set_fields doc doc_data)].
      rewrite <- app_assoc. repeat split; [discriminate].
    + repeat split; try reflexivity.
      exists [CallGetDoc (doctype_name job) name; CallSave (set_fields doc doc_data)].
      rewrite <- app_assoc. repeat split. intros _. eexists. reflexivity.
Qed.

Lemma create_new_effect (doc_data : Doc) (s : @State St) :
  let r := create_new doc_data s in
  realtime (fst r) = realtime s
  /\ error_log (fst r) = error_log s
  /\ session_user (fst r) = session_user s
  /\ counters (fst r)
     = (if returned (snd r) then count_created (counters s) else counters s)
  /\ exists l, calls (fst r) = calls s ++ l /\ forallb is_create_call l = true
               /\ (returned (snd r) = true -> exists d, l = [CallNewDoc doc_data; CallInsert d]).
Proof.
  unfold create_new, bind, backend_read, backend_write, update_counters, modify.
  simpl. destruct (new_doc doc_data (store s)) as [e|doc]; simpl.
  - repeat split; try reflexivity.
    exists [CallNewDoc doc_data]. repeat split; [discriminate].
  - destruct (doc_insert doc (store s)) as [st' [e|[]]]; simpl.
    + repeat split; try reflexivity.
      exists [CallNewDoc doc_data; CallInsert doc].
      rewrite <- app_assoc. repeat split; [discriminate].
    + repeat split; try reflexivity.
      exists [CallNewDoc doc_data; CallInsert doc].
      rewrite <- app_assoc. repeat split. intros _. eexists. reflexivity.
Qed.

Lemma reconcile_effect (existing_doc : option string) (doc_data : Doc) (s : @State St) :
  let r := reconcile job existing_doc doc_data s in
  realtime (fst r) = realtime s
  /\ error_log (fst r) = error_log s
  /\ session_user (fst r) = session_user s
  /\ (if returned (snd r)
      then counters (fst r) = count_created (counters s)
           \/ counters (fst r) = count_updated (counters s)
           \/ counters (fst r) = count_skipped (counters s)
      else counters (fst r) = counters s).
Proof.
  unfold reconcile.
  destruct (str_truthy existing_doc); [destruct (int_truthy (allow_update job))
                                      | destruct (int_truthy (allow_create job))].
  - destruct (update_existing_effect (str_or_empty existing_doc) doc_data s)
      as (H1 & H2 & H3 & H4 & _).
    cbv zeta in *. repeat split; try assumption.
    destruct (returned _); [right; left|]; exact H4.
  - simpl. repeat split. right. right. reflexivity.
  - destruct (create_new_effect doc_data s) as (H1 & H2 & H3 & H4 & _).
    cbv zeta in *. repeat split; try assumption.
    destruct (returned _); [left|]; exact H4.
  - simpl. repeat split. right. right. reflexivity.
Qed.

Lemma report_progress_effect (idx total_rows : Z) (s : @State St) :
  let r := report_progress idx total_rows s in
  snd r = inr tt
  /\ counters (fst r) = counters s
  /\ error_log (fst r) = error_log s
  /\ session_user (fst r) = session_user s
  /\ store (fst r) = store s
  /\ calls (fst r) = calls s
  /\ progress_events (fst r)
     = progress_events s
       ++ (if progress_due idx total_rows then [in_progress_event total_rows idx] else []).
Proof.
  unfold report_progress, publish_progress, modify, ret, progress_events.
  destruct (progress_due idx total_rows); simpl.
  - repeat split. rewrite map_app. reflexivity.
  - repeat split. rewrite app_nil_r. reflexivity.
Qed.

(** The body of a row either returns, having counted the row as created,
    updated or skipped and having reported progress if it is due, or
    raises, having counted and published nothing. *)
Lemma row_body_effect (excel_columns : list string) (total_rows idx : Z)
      (row : list cell) (s : @State St) :
  let r := row_body job excel_columns total_rows idx row s in
  error_log (fst r) = error_log s
  /\ session_user (fst r) = session_user s
  /\ (if returned (snd r)
      then (counters (fst r) = count_created (counters s)
            \/ counters (fst r) = count_updated (counters s)
            \/ counters (fst r) = count_skipped (counters s))
           /\ progress_events (fst r)
              = progress_events s
                ++ (if progress_due idx total_rows
                    then [in_progress_event total_rows idx] else [])
      else counters (fst r) = counters s
           /\ progress_events (fst r) = progress_events s).
Proof.
  unfold row_body, bind, of_result.
  destruct (build_doc_data job excel_columns row) as [e|[doc_data unique_value]];
    [simpl; auto|].
  pose proof (find_existing_effect unique_value s) as (F1 & F2 & F3 & F4 & F5).
  destruct (find_existing job unique_value s) as [s1 [e|existing_doc]];
    simpl in F1, F2, F3, F4, F5.
  { simpl. unfold progress_events. rewrite F2. auto. }
  pose proof (reconcile_effect existing_doc doc_data s1) as (R1 & R2 & R3 & R4).
  destruct (reconcile job existing_doc doc_data s1) as [s2 [e|[]]];
    simpl in R1, R2, R3, R4.
  { simpl. unfold progress_events. rewrite R1, R2, R3, R4, F1, F2, F3, F5. auto. }
  pose proof (report_progress_effect idx total_rows s2) as (P1 & P2 & P3 & P4 & _ & _ & P5).
  destruct (report_progress idx total_rows s2) as [s3 r3]. simpl in P1, P2, P3, P4, P5.
  subst r3. simpl.
  assert (E : progress_events s2 = progress_events s)
    by (unfold progress_events; rewrite R1, F2; reflexivity).
  rewrite P2, P3, P4, P5, E, R2, R3, F3, F5. rewrite <- F1. auto.
Qed.

Lemma row_handler_effect (idx : Z) (e : exn) (s : @State St) :
  let r := row_handler job idx e s in
  snd r = inr tt
  /\ counters (fst r) = count_error (counters s)
  /\ realtime (fst r) = realtime s
  /\ session_user (fst r) = session_user s
  /\ store (fst r) = store s
  /\ calls (fst r) = calls s.
Proof.
  cbv [row_handler bind update_counters modify log_error fst snd
       with_counters with_error_log counters realtime session_user store calls].
  repeat split.
Qed.

Lemma process_row_effect (excel_columns : list string) (total_rows idx : Z)
      (row : list cell) (s : @State St) :
  let body := row_body job excel_columns total_rows idx row s in
  let r := process_row job excel_columns total_rows idx row s in
  snd r = inr tt
  /\ session_user (fst r) = session_user s
  /\ (if returned (snd body)
      then counters (fst r) = count_created (counters s)
           \/ counters (fst r) = count_updated (counters s)
           \/ counters (fst r) = count_skipped (counters s)
      else counters (fst r) = count_error (counters s))
  /\ progress_events (fst r)
     = progress_events s
       ++ (if returned (snd body) && progress_due idx total_rows
           then [in_progress_event total_rows idx] else []).
Proof.
  unfold process_row, try_except.
  pose proof (row_body_effect excel_columns total_rows idx row s) as (E1 & E2 & E3).
  destruct (row_body job excel_columns total_rows idx row s) as [s1 [e|[]]];
    cbn [fst snd returned andb] in E1, E2, E3 |- *.
  - destruct E3 as [E3 E4].
    pose proof (row_handler_effect idx e s1) as (H1 & H2 & H3 & H4 & _).
    destruct (row_handler job idx e s1) as [s2 r2]. cbn [fst snd] in *.
    unfold progress_events in *. rewrite H2, H3, H4, E3, E4, E2, app_nil_r. auto.
  - destruct E3 as [E3 E4]. auto.
Qed.


(** *** The loop over the rows *)

Lemma rows_counted_step (c c' : Counters) :
  c' = count_created c \/ c' = count_updated c \/ c' = count_skipped c
  \/ c' = count_error c ->
  rows_counted c' = rows_counted c + 1.
Proof.
  unfold rows_counted. intros [H|[H|[H|H]]]; subst c'; simpl; lia.
Qed.

Lemma process_rows_effect (excel_columns : list string) (total_rows : Z)
      (rows : list (list cell)) :
  forall (idx : Z) (s : @State St),
    let r := process_rows job excel_columns total_rows idx rows s in
    let outcomes := row_outcomes job excel_columns total_rows idx rows s in
    snd r = inr tt
    /\ session_user (fst r) = session_user s
    /\ rows_counted (counters (fst r))
       = rows_counted (counters s) + Z.of_nat (List.length rows)
    /\ error_count (counters (fst r))
       = error_count (counters s) + count_errors outcomes
    /\ progress_events (fst r)
       = progress_events s
         ++ map (in_progress_event total_rows)
                (reported_rows total_rows idx outcomes).
Proof.
  induction rows as [|row rows IH]; intros idx s.
  - cbn [process_rows row_outcomes reported_rows map List.length ret fst snd].
    unfold count_errors. simpl. rewrite app_nil_r.
    repeat split; lia.
  - cbn [process_rows row_outcomes reported_rows]. unfold bind.
    pose proof (process_row_effect excel_columns total_rows idx row s)
      as (H1 & H2 & H3 & H4).
    cbv zeta in H1, H2, H3, H4.
    destruct (process_row job excel_columns total_rows idx row s) as [s1 r1].
    cbn [fst snd] in H1, H2, H3, H4 |- *. subst r1.
    specialize (IH (idx + 1) s1). cbv zeta in IH.
    destruct IH as (I1 & I2 & I3 & I4 & I5).
    split; [exact I1|]. split; [congruence|].
    set (ok := returned (snd (row_body job excel_columns total_rows idx row s))) in *.
    split; [|split].
    + rewrite I3. rewrite (rows_counted_step (counters s) (counters s1)).
      * cbn [List.length]. rewrite Nat2Z.inj_succ. lia.
      * destruct ok; tauto.
    + rewrite I4. unfold count_errors. cbn [filter].
      destruct ok; cbn [negb].
      * destruct H3 as [H3|[H3|H3]]; rewrite H3; simpl; lia.
      * rewrite H3. cbn [List.length]. rewrite Nat2Z.inj_succ. simpl. lia.
    + rewrite I5, H4, map_app, <- app_assoc.
      destruct (ok && progress_due idx total_rows); reflexivity.
Qed.




Lemma row_outcomes_length (excel_columns : list string) (total_rows : Z)
      (rows : list (list cell)) :
  forall (idx : Z) (s : @State St),
    List.length (row_outcomes job excel_columns total_rows idx rows s)
    = List.length rows.
Proof.
  induction rows as [|row rows IH]; intros idx s; simpl; [reflexivity|].
  rewrite IH. reflexivity.
Qed.

(** *** After the loop *)

Lemma remove_uploaded_file_effect (s : @State St) :
  let r := remove_uploaded_file job s in
  snd r = inr tt
  /\ realtime (fst r) = realtime s
  /\ counters (fst r) = counters s
  /\ session_user (fst r) = session_user s.
Proof.
  cbv [remove_uploaded_file try_except bind backend_read backend_write ret
       log_error modify].
  repeat
    (cbn [fst snd realtime counters session_user store calls
          with_store with_calls with_error_log];
     match goal with
     | |- context [os_path_exists ?a ?b] => destruct (os_path_exists a b)
     | |- context [os_remove ?a ?b] => destruct (os_remove a b) as [? [?|[]]]
     | |- context [db_exists ?a ?b ?c ?d] => destruct (db_exists a b c d) as [?|[|]]
     | |- context [db_get_value ?a ?b ?c ?d] => destruct (db_get_value a b c d) as [?|?]
     | |- context [delete_doc ?a ?b ?c] => destruct (delete_doc a b c) as [? [?|[]]]
     | |- context [db_commit ?a] => destruct (db_commit a) as [? [?|[]]]
     end);
    cbn [fst snd realtime counters session_user store calls
         with_store with_calls with_error_log];
    repeat split.
Qed.


Lemma import_body_cases (s : @State St) :
  match read_excel (file_path job) (store s) with
  | inl e => import_body job s = (state_read job s, inl e)
  | inr df =>
      let total_rows := Z.of_nat (List.length (df_rows df)) in
      if total_rows <=? 0 then
        import_body job s
        = publish_progress 0 0 "No data found in Excel file" "error" (state_read job s)
      else
        match db_commit (store (state_after_rows job df s)) with
        | (st, inl e) => import_body job s = (state_committed job df s st, inl e)
        | (st, inr _) =>
            let s_clean := fst (remove_uploaded_file job (state_committed job df s st)) in
            import_body job s
            = publish_progress 100 total_rows (completion_message (counters s_clean))
                               "completed" s_clean
        end
  end.
Proof.
  destruct (read_excel (file_path job) (store s)) as [e|df] eqn:Hread.
  { unfold import_body, bind, backend_read. rewrite Hread. reflexivity. }
  cbv zeta. destruct (Z.of_nat (List.length (df_rows df)) <=? 0) eqn:Hz.
  { unfold import_body, bind, backend_read. rewrite Hread, Hz. reflexivity. }
  pose proof (process_rows_effect (df_columns df) (Z.of_nat (List.length (df_rows df)))
                                  (df_rows df) 0
                                  (with_counters (state_read job s) zero_counters))
    as (H1 & _).
  cbv zeta in H1.
  assert (Hbody : import_body job s
                  = bind (backend_write CallCommit db_commit)
                      (fun _ => bind (remove_uploaded_file job)
                         (fun _ => bind get_counters
                            (fun c => publish_progress 100
                                        (Z.of_nat (List.length (df_rows df)))
                                        (completion_message c) "completed")))
                      (state_after_rows job df s)).
  { unfold import_body, state_after_rows.
    unfold bind at 1. unfold backend_read at 1. rewrite Hread, Hz.
    unfold bind at 1. unfold update_counters at 1, modify at 1.
    unfold bind at 1. fold (state_read job s).
    cbn [counters with_counters].
    destruct (process_rows job (df_columns df) (Z.of_nat (List.length (df_rows df))) 0
                           (df_rows df) (with_counters (state_read job s) zero_counters))
      as [s_loop r_loop].
    cbn [fst snd] in H1 |- *. subst r_loop. reflexivity. }
  rewrite Hbody. unfold state_committed.
  set (s_loop := state_after_rows job df s).
  destruct (db_commit (store s_loop)) as [st [e|[]]] eqn:Hcommit.
  { unfold bind, backend_write. rewrite Hcommit. reflexivity. }
  pose proof (remove_uploaded_file_effect
                (with_store (with_calls s_loop (calls s_loop ++ [CallCommit])) st))
    as (H2 & _).
  cbv zeta in H2 |- *.
  unfold bind at 1. unfold backend_write at 1. rewrite Hcommit.
  unfold bind at 1.
  destruct (remove_uploaded_file job
              (with_store (with_calls s_loop (calls s_loop ++ [CallCommit])) st))
    as [s_clean r_clean].
  cbn [fst snd] in H2 |- *. subst r_clean.
  unfold bind, get_counters. reflexivity.
Qed.


Lemma import_handler_effect (e : exn) (s : @State St) :
  let r := import_handler job e s in
  snd r = inr tt
  /\ progress_events (fst r) = progress_events s ++ [failure_event e]
  /\ counters (fst r) = counters s
  /\ calls (fst r) = calls s ++ [CallRollback]
  /\ store (fst r) = db_rollback (store s).
Proof.
  cbv [import_handler bind log_error publish_progress modify fst snd
       progress_events with_error_log with_realtime with_store with_calls
       realtime counters calls store session_user error_log].
  rewrite map_app. repeat split.
Qed.

Lemma process_excel_import_unfold (s : @State St) :
  process_excel_import job s
  = try_except (import_body job) (import_handler job) (with_user s (user job)).
Proof. reflexivity. Qed.

(** C9: on a sheet without rows the run publishes the one event
    {progress 0, total 0, status error} and returns; the only call on the
    backend is the reading of the file, and the store is as it was. *)
Theorem empty_sheet_publishes_one_error_event (s : @State St) (df : DataFrame) :
  read_excel (file_path job) (store s) = inr df ->
  df_rows df = [] ->
  let r := process_excel_import job s in
  snd r = inr tt
  /\ progress_events (fst r) = progress_events s ++ [no_data_event]
  /\ store (fst r) = store s
  /\ calls (fst r) = calls s ++ [CallReadExcel (file_path job)]
  /\ counters (fst r) = counters s
  /\ error_log (fst r) = error_log s.
Proof.
  intros Hread Hrows. cbv zeta. rewrite process_excel_import_unfold.
  unfold try_except.
  pose proof (import_body_cases (with_user s (user job))) as Hcases.
  cbn [store with_user] in Hcases. rewrite Hread, Hrows in Hcases.
  cbn [List.length Z.of_nat Z.leb Z.compare] in Hcases. cbv zeta in Hcases.
  rewrite Hcases.
  cbv [publish_progress modify state_read fst snd progress_events with_realtime
       with_calls with_user realtime store calls counters error_log session_user].
  rewrite map_app. repeat split.
Qed.

(** C10: when the body of the run raises, the event published for the
    failure carries progress 0 and total 0, whatever the number of rows
    read before; it agrees with the event of an empty sheet on progress,
    total and status, and differs from it in the message. *)
Theorem failure_event_carries_total_zero (s s1 : @State St) (e : exn) :
  import_body job (with_user s (user job)) = (s1, inl e) ->
  let r := process_excel_import job s in
  snd r = inr tt
  /\ progress_events (fst r) = progress_events s1 ++ [failure_event e]
  /\ total (failure_event e) = 0
  /\ progress (failure_event e) = progress no_data_event
  /\ total (failure_event e) = total no_data_event
  /\ status (failure_event e) = status no_data_event
  /\ message (failure_event e) <> message no_data_event.
Proof.
  intros Hbody. cbv zeta. rewrite process_excel_import_unfold.
  unfold try_except. rewrite Hbody.
  pose proof (import_handler_effect e s1) as (H1 & H2 & _).
  split; [exact H1|]. split; [exact H2|].
  repeat split. cbn [message failure_event no_data_event]. discriminate.
Qed.



(** X23: when the commit returns, the run ends with the completed event,
    whatever the removal of the uploaded file does; the event reports the
    counters the loop left, which add up to the number of rows. *)
Lemma completed_event_reports_all_rows (s : @State St) (df : DataFrame) (st : St) :
  read_excel (file_path job) (store s) = inr df ->
  0 < Z.of_nat (List.length (df_rows df)) ->
  db_commit (store (state_after_rows job df (with_user s (user job)))) = (st, inr tt) ->
  let r := process_excel_import job s in
  let s_loop := state_after_rows job df (with_user s (user job)) in
  rows_counted (counters s_loop) = Z.of_nat (List.length (df_rows df))
  /\ snd r = inr tt
  /\ progress_events (fst r)
     = progress_events s_loop
       ++ [{| progress := 100; total := Z.of_nat (List.length (df_rows df));
              message := completion_message (counters s_loop);
              status := "completed" |}].
Proof.
  intros Hread Hpos Hcommit. cbv zeta.
  set (s0 := with_user s (user job)) in *.
  split.
  - unfold state_after_rows.
    pose proof (process_rows_effect (df_columns df) (Z.of_nat (List.length (df_rows df)))
                                    (df_rows df) 0
                                    (with_counters (state_read job s0) zero_counters))
      as (_ & _ & H3 & _).
    exact H3.
  - rewrite process_excel_import_unfold. unfold try_except. fold s0.
    pose proof (import_body_cases s0) as Hcases.
    change (store s0) with (store s) in Hcases. rewrite Hread in Hcases.
    cbv zeta in Hcases. apply Z.leb_gt in Hpos. rewrite Hpos, Hcommit in Hcases.
    rewrite Hcases.
    pose proof (remove_uploaded_file_effect (state_committed job df s0 st))
      as (_ & Hr & Hc & _).
    cbv zeta in Hr, Hc.
    set (s_clean := fst (remove_uploaded_file job (state_committed job df s0 st))) in *.
    cbv [publish_progress modify fst snd]. split; [reflexivity|].
    unfold progress_events. cbn [realtime with_realtime].
    rewrite map_app, Hr, Hc.
    unfold state_committed. cbn [realtime counters with_store with_calls map rt_message].
    reflexivity.
Qed.

(** X1: a row is a reporting row when its 1-based
    number is a multiple of ten or the number of rows; after a reporting
    row whose processing returns, one in_progress event with the
    percentage of that row is published; after a row whose processing
    raises, and after any other row, nothing is published.  Over the whole
    loop the events are those of the reporting rows that returned, in row
    order. *)
Theorem progress_reported_after_rows_that_return
        (excel_columns : list string) (total_rows : Z) :
  (forall idx : Z,
      progress_due idx total_rows = true
      <-> (idx + 1) mod 10 = 0 \/ idx + 1 = total_rows)
  /\ (forall (idx : Z) (row : list cell) (s : @State St),
         let body := row_body job excel_columns total_rows idx row s in
         let r := process_row job excel_columns total_rows idx row s in
         progress_events (fst r)
         = progress_events s
           ++ (if returned (snd body) && progress_due idx total_rows
               then [{| progress := progress_percent idx total_rows;
                        total := total_rows;
                        message := ("Processing row " ++ str_of_int (idx + 1)
                                    ++ " of " ++ str_of_int total_rows)%string;
                        status := "in_progress" |}]
               else []))
  /\ (forall (rows : list (list cell)) (idx : Z) (s : @State St),
         progress_events (fst (process_rows job excel_columns total_rows idx rows s))
         = progress_events s
           ++ map (in_progress_event total_rows)
                  (reported_rows total_rows idx
                     (row_outcomes job excel_columns total_rows idx rows s))).
Proof.
  split; [|split].
  - intros idx. unfold progress_due. rewrite orb_true_iff, !Z.eqb_eq. reflexivity.
  - intros idx row s.
    pose proof (process_row_effect excel_columns total_rows idx row s)
      as (_ & _ & _ & H4).
    exact H4.
  - intros rows idx s.
    pose proof (process_rows_effect excel_columns total_rows rows idx s)
      as (_ & _ & _ & _ & H5).
    exact H5.
Qed.

Lemma loop_events_ordered (df : DataFrame) (s : @State St) :
  0 < Z.of_nat (List.length (df_rows df)) ->
  exists evs,
    progress_events (state_after_rows job df s) = progress_events s ++ evs
    /\ Forall (fun ev => status ev = "in_progress") evs
    /\ nondecreasing (map progress evs)
    /\ Forall (fun p => 0 <= p <= 100) (map progress evs).
Proof.
  intros Hpos. unfold state_after_rows.
  set (total_rows := Z.of_nat (List.length (df_rows df))) in *.
  set (s0 := with_counters (state_read job s) zero_counters).
  pose proof (process_rows_effect (df_columns df) total_rows (df_rows df) 0 s0)
    as (_ & _ & _ & _ & H5).
  cbv zeta in H5.
  set (outcomes := row_outcomes job (df_columns df) total_rows 0 (df_rows df) s0) in *.
  exists (map (in_progress_event total_rows) (reported_rows total_rows 0 outcomes)).
  destruct (reported_rows_sorted total_rows outcomes 0) as [Hs Hb].
  assert (Hb' : Forall (fun i => 0 <= i < total_rows)
                       (reported_rows total_rows 0 outcomes)).
  { eapply Forall_impl; [|exact Hb]. intros i Hi. cbv beta in Hi |- *.
    unfold outcomes in Hi. rewrite row_outcomes_length in Hi.
    unfold total_rows. lia. }
  destruct (percents_nondecreasing total_rows _ Hpos Hs Hb') as [Hn Hr].
  split; [exact H5|]. split; [|split; assumption].
  apply Forall_map. apply Forall_forall. intros i _. reflexivity.
Qed.



(** *** The lookup and the update *)

(** The lookup is made exactly when the unique field and the unique value
    are both truthy. *)
Lemma find_existing_calls (unique_value : pyval) (s : @State St) :
  calls (fst (find_existing job unique_value s))
  = calls s
    ++ (if str_truthy (unique_field job) && py_truthy unique_value
        then [CallGetValue (doctype_name job) (str_or_empty (unique_field job))
                           unique_value]
        else []).
Proof.
  unfold find_existing, backend_read, ret.
  destruct (str_truthy (unique_field job) && py_truthy unique_value); cbn [fst calls with_calls].
  - reflexivity.
  - rewrite app_nil_r. reflexivity.
Qed.


End EngineFacts.

(** ** Runs on the reference backend *)

(** The two scenarios of the spec: with creation only, both rows are
    created (Bob's has no unique value, so no lookup is made for it); with
    update only and Alice on record, Alice is updated and Bob is skipped. *)
Example scenario_create_only :
  let s := run_on (contacts_job (Some "email_addr") 1 0) (store_with contacts_sheet []) in
  created_count (counters s) = 2 /\ skipped_count (counters s) = 0
  /\ filter is_lookup_call (calls s)
     = [CallGetValue "Contact" "email_addr" (PyStr "a@x.com")].
Proof. vm_compute. repeat split. Qed.

Example scenario_update_only :
  let s := run_on (contacts_job (Some "email_addr") 0 1)
                  (store_with contacts_sheet [("REC-1", alice_doc)]) in
  updated_count (counters s) = 1 /\ skipped_count (counters s) = 1
  /\ created_count (counters s) = 0.
Proof. vm_compute. repeat split. Qed.


(** C4: the item of code 0 is on record and the sheet holds it again.  The
    unique value 0 is not None, yet no lookup is made for it, and the item
    is created a second time; with the code 7 the lookup is made and the
    record is updated. *)
Theorem falsy_unique_value_is_not_looked_up :
  let s0 := run_on items_job (store_with (items_sheet 0) [("REC-1", item_doc 0)]) in
  let s7 := run_on items_job (store_with (items_sheet 7) [("REC-1", item_doc 7)]) in
  is_not_none (PyInt 0) = true
  /\ filter is_lookup_call (calls s0) = []
  /\ created_count (counters s0) = 1
  /\ List.length (filter (fun r => field_is "code" (PyInt 0) (snd r)) (records (store s0)))
     = 2%nat
  /\ filter is_lookup_call (calls s7) = [CallGetValue "Item" "code" (PyInt 7)]
  /\ updated_count (counters s7) = 1
  /\ List.length (records (store s7)) = 1%nat.
Proof. vm_compute. repeat split. Qed.

(** C5: the last row of a sheet is not reported when its processing
    raises, and a reported percentage can lie below the floor of the exact
    quotient.  The only row of the sheet, hence the last, fails validation:
    it is counted as an error and no in_progress event is published for it,
    the one event of the run being the completed one.  Row 290 of 1000 is
    reported with 28 percent, the floor of 290 * 100 / 1000 being 29. *)
Theorem last_row_that_raises_is_not_reported :
  let s := run_on (contacts_job (Some "email_addr") 1 1) (strict_store bob_sheet) in
  Z.of_nat (List.length (df_rows bob_sheet)) = 1
  /\ progress_due 0 1 = true
  /\ error_count (counters s) = 1
  /\ ~ In (in_progress_event 1 0) (progress_events s)
  /\ filter (fun ev => (status ev =? "in_progress")%string) (progress_events s) = []
  /\ map status (progress_events s) = ["completed"]
  /\ progress_percent 289 1000 = 28
  /\ (289 + 1) * 100 / 1000 = 29.
Proof.
  vm_compute. repeat split.
  intros [H|[]]. discriminate H.
Qed.



(** C9 on the sheet without rows. *)
Lemma empty_sheet_publishes_one_error_event_witness :
  let job := contacts_job (Some "email_addr") 1 1 in
  let s := initial_state (store_with empty_sheet []) in
  let r := process_excel_import job s in
  snd r = inr tt
  /\ progress_events (fst r) = progress_events s ++ [no_data_event]
  /\ store (fst r) = store s
  /\ calls (fst r) = calls s ++ [CallReadExcel (file_path job)]
  /\ counters (fst r) = counters s
  /\ error_log (fst r) = error_log s.
Proof.
  exact (empty_sheet_publishes_one_error_event
           (contacts_job (Some "email_addr") 1 1)
           (initial_state (store_with empty_sheet []))
           empty_sheet eq_refl eq_refl).
Defined.

(** C10 on the run whose commit fails after its two rows were processed. *)
Lemma failure_event_carries_total_zero_witness :
  let job := contacts_job (Some "email_addr") 1 1 in
  let s := initial_state (offline_store contacts_sheet) in
  let e := Exception "Lost connection to the database" in
  let s1 := fst (import_body job (with_user s (user job))) in
  let r := process_excel_import job s in
  Z.of_nat (List.length (df_rows contacts_sheet)) = 2
  /\ snd r = inr tt
  /\ progress_events (fst r) = progress_events s1 ++ [failure_event e]
  /\ total (failure_event e) = 0
  /\ progress (failure_event e) = progress no_data_event
  /\ total (failure_event e) = total no_data_event
  /\ status (failure_event e) = status no_data_event
  /\ message (failure_event e) <> message no_data_event.
Proof.
  split; [reflexivity|].
  apply (failure_event_carries_total_zero
           (contacts_job (Some "email_addr") 1 1)
           (initial_state (offline_store contacts_sheet))).
  vm_compute. reflexivity.
Defined.


(** ** The draft of a row *)

Lemma dict_get_set_cases {V : Type} (d : dict V) (k f : string) (v w : V) :
  dict_get (dict_set d k v) f = Some w ->
  (f = k /\ w = v) \/ (f <> k /\ dict_get d f = Some w).
Proof.
  intros H. destruct (string_dec k f) as [E|E].
  - subst f. rewrite dict_get_set_same in H. injection H as H. left. split; congruence.
  - rewrite dict_get_set_other in H by exact E. right. split; [congruence | exact H].
Qed.

Lemma to_python_not_none (c : cell) : pd_notna c = true -> is_not_none (to_python c) = true.
Proof. destruct c as [| | | |[]]; cbn; congruence. Qed.

Section DraftMore.
Variable job : Job.
Variables (excel_columns : list string) (row : list cell).

Lemma map_columns_origin (items : list (string * string)) :
  (forall x, In x items -> In x (field_mapping job)) ->
  forall (doc_data : Doc) (unique_value : pyval) (doc_data' : Doc) (unique_value' : pyval),
    (forall f v, dict_get doc_data f = Some v -> draft_origin job excel_columns row f v) ->
    map_columns job items excel_columns row doc_data unique_value
    = inr (doc_data', unique_value') ->
    forall f v, dict_get doc_data' f = Some v -> draft_origin job excel_columns row f v.
Proof.
  induction items as [|[excel_field doctype_field] items IH];
    intros Hin doc_data unique_value doc_data' unique_value' Hinv Hmap;
    cbn [map_columns] in Hmap.
  - injection Hmap as E _. subst doc_data'. exact Hinv.
  - assert (Hin' : forall x, In x items -> In x (field_mapping job))
      by (intros x Hx; apply Hin; right; exact Hx).
    destruct (list_contains excel_field excel_columns) eqn:Hcol;
      [|eapply IH; eassumption].
    destruct (row_getitem excel_columns row excel_field) as [e|c] eqn:Hcell;
      [discriminate|].
    destruct (pd_notna c) eqn:Hna; [|eapply IH; eassumption].
    eapply IH; [exact Hin'| |exact Hmap].
    intros f v Hget. apply dict_get_set_cases in Hget.
    destruct Hget as [[Ef Ev]|[_ Hget]]; [|exact (Hinv f v Hget)].
    subst f v. right. exists excel_field, c.
    split; [apply Hin; left; reflexivity|]. repeat split; assumption.
Qed.

(** X11: every value of the draft of a row is the doctype the draft starts
    with or the converted content of a cell that is not missing, under a
    column of the sheet mapped to that field; no value of the draft is
    None. *)
Theorem draft_values_come_from_filled_cells (doc_data : Doc) (unique_value : pyval) :
  build_doc_data job excel_columns row = inr (doc_data, unique_value) ->
  forall f v, dict_get doc_data f = Some v ->
              draft_origin job excel_columns row f v /\ is_not_none v = true.
Proof.
  intros Hbuild f v Hget.
  assert (Ho : draft_origin job excel_columns row f v).
  { unfold build_doc_data, dict_items in Hbuild.
    refine (map_columns_origin (field_mapping job) (fun x H => H) _ _ _ _ _ Hbuild f v Hget).
    intros f0 v0 H0. cbn [dict_get] in H0.
    destruct (String.eqb_spec "doctype" f0) as [E|E]; [|discriminate].
    injection H0 as H0. left. split; congruence. }
  split; [exact Ho|].
  destruct Ho as [[_ Ev]|(ef & c & _ & _ & _ & Hna & Ev)]; subst v.
  - reflexivity.
  - apply to_python_not_none. exact Hna.
Qed.

Lemma map_columns_unique (items : list (string * string)) (init : Doc) :
  str_truthy (unique_field job) = true ->
  forall (doc_data : Doc) (unique_value : pyval) (doc_data' : Doc) (unique_value' : pyval),
    (unique_value = PyNone
     /\ dict_get doc_data (str_or_empty (unique_field job))
        = dict_get init (str_or_empty (unique_field job)))
    \/ (dict_get doc_data (str_or_empty (unique_field job)) = Some unique_value
        /\ is_not_none unique_value = true) ->
    map_columns job items excel_columns row doc_data unique_value
    = inr (doc_data', unique_value') ->
    (unique_value' = PyNone
     /\ dict_get doc_data' (str_or_empty (unique_field job))
        = dict_get init (str_or_empty (unique_field job)))
    \/ (dict_get doc_data' (str_or_empty (unique_field job)) = Some unique_value'
        /\ is_not_none unique_value' = true).
Proof.
  intros Hu. set (u := str_or_empty (unique_field job)).
  induction items as [|[excel_field doctype_field] items IH];
    intros doc_data unique_value doc_data' unique_value' Hinv Hmap;
    cbn [map_columns] in Hmap.
  - injection Hmap as E1 E2. subst. exact Hinv.
  - destruct (list_contains excel_field excel_columns); [|eapply IH; eassumption].
    destruct (row_getitem excel_columns row excel_field) as [e|c]; [discriminate|].
    destruct (pd_notna c) eqn:Hna; [|eapply IH; eassumption].
    eapply IH; [|exact Hmap]. rewrite Hu. cbn [andb]. fold u.
    destruct (String.eqb_spec doctype_field u) as [E|E].
    + right. subst doctype_field.
      split; [apply dict_get_set_same | apply to_python_not_none; exact Hna].
    + rewrite (dict_get_set_other doc_data doctype_field u _ E). exact Hinv.
Qed.

Lemma map_columns_no_unique (items : list (string * string)) :
  str_truthy (unique_field job) = false ->
  forall (doc_data : Doc) (unique_value : pyval) (doc_data' : Doc) (unique_value' : pyval),
    map_columns job items excel_columns row doc_data unique_value
    = inr (doc_data', unique_value') ->
    unique_value' = unique_value.
Proof.
  intros Hu.
  induction items as [|[excel_field doctype_field] items IH];
    intros doc_data unique_value doc_data' unique_value' Hmap;
    cbn [map_columns] in Hmap.
  - injection Hmap as _ E. symmetry. exact E.
  - destruct (list_contains excel_field excel_columns); [|eapply IH; eassumption].
    destruct (row_getitem excel_columns row excel_field) as [e|c]; [discriminate|].
    destruct (pd_notna c); [|eapply IH; eassumption].
    rewrite Hu in Hmap. cbn [andb] in Hmap. eapply IH; eassumption.
Qed.

(** X12: with no unique field configured the unique value of a row is
    None.  With one, the unique value is either the value the draft holds
    for the unique field, which is not None, or it is None; it is None
    exactly when no filled cell was written to that field, the draft then
    holding for it what it started with: the doctype name under 'doctype',
    nothing under any other name. *)
Theorem unique_value_is_draft_value (doc_data : Doc) (unique_value : pyval) :
  build_doc_data job excel_columns row = inr (doc_data, unique_value) ->
  (str_truthy (unique_field job) = false -> unique_value = PyNone)
  /\ (str_truthy (unique_field job) = true ->
      (dict_get doc_data (str_or_empty (unique_field job)) = Some unique_value
       /\ is_not_none unique_value = true)
      \/ (unique_value = PyNone
          /\ dict_get doc_data (str_or_empty (unique_field job))
             = (if (str_or_empty (unique_field job) =? "doctype")%string
                then Some (PyStr (doctype_name job)) else None))).
Proof.
  intros Hbuild. unfold build_doc_data, dict_items in Hbuild. split.
  - intros Hu. exact (map_columns_no_unique _ Hu _ _ _ _ Hbuild).
  - intros Hu.
    destruct (map_columns_unique (field_mapping job) [("doctype", PyStr (doctype_name job))]
                                 Hu _ _ _ _ (or_introl (conj eq_refl eq_refl)) Hbuild)
      as [[E1 E2]|E].
    + right. split; [exact E1|]. rewrite E2. cbn [dict_get].
      rewrite (String.eqb_sym (str_or_empty (unique_field job)) "doctype").
      reflexivity.
    + left. exact E.
Qed.
End DraftMore.

(** ** More on the import engine *)

Lemma grows_by_refl {A : Type} (P : A -> Prop) (l : list A) : grows_by P l l.
Proof. intros x Hx. left. exact Hx. Qed.

Lemma grows_by_trans {A : Type} (P : A -> Prop) (l1 l2 l3 : list A) :
  grows_by P l1 l2 -> grows_by P l2 l3 -> grows_by P l1 l3.
Proof.
  intros H12 H23 x Hx. destruct (H23 x Hx) as [H|H]; [exact (H12 x H) | right; exact H].
Qed.

Lemma grows_by_snoc {A : Type} (P : A -> Prop) (l : list A) (a : A) :
  P a -> grows_by P l (l ++ [a]).
Proof.
  intros Ha x Hx. apply in_app_or in Hx.
  destruct Hx as [Hx|[Hx|[]]]; [left; exact Hx | right; subst x; exact Ha].
Qed.

Section EngineMore.
Context {St : Type} {B : Backend St}.
Variable job : Job.

Ltac row_cases :=
  repeat
    (cbn [fst snd realtime counters session_user store calls error_log
          with_store with_calls with_error_log with_counters with_realtime
          returned];
     match goal with
     | |- context [build_doc_data ?j ?c ?r] =>
         destruct (build_doc_data j c r) as [?|[? ?]]
     | |- context [db_get_value ?a ?b ?c ?d] =>
         destruct (db_get_value a b c d) as [?|?]
     | |- context [get_doc ?a ?b ?c] => destruct (get_doc a b c) as [?|?]
     | |- context [doc_save ?a ?b] => destruct (doc_save a b) as [? [?|[]]]
     | |- context [new_doc ?a ?b] => destruct (new_doc a b) as [?|?]
     | |- context [doc_insert ?a ?b] => destruct (doc_insert a b) as [? [?|[]]]
     | |- context [if ?b then _ else _] => destruct b eqn:?
     end);
  cbn [fst snd realtime counters session_user store calls error_log
       with_store with_calls with_error_log with_counters with_realtime
       returned].

Ltac unfold_row :=
  cbv [process_row row_body row_handler try_except bind of_result find_existing
       reconcile update_existing create_new report_progress publish_progress
       log_error backend_read backend_write update_counters modify ret].

Ltac split_flags :=
  repeat match goal with
         | H : (_ && _)%bool = true |- _ => apply andb_prop in H; destruct H
         end.

(** What one row leaves behind: the session user stays; what is published is
    sent to the session user; the calls are those the flags and the unique
    field allow; the row is counted under the counter its flags allow. *)
Lemma process_row_grows (excel_columns : list string) (total_rows idx : Z)
      (row : list cell) (s : @State St) :
  let r := process_row job excel_columns total_rows idx row s in
  session_user (fst r) = session_user s
  /\ grows_by (sent_to (session_user s)) (realtime s) (realtime (fst r))
  /\ grows_by (fun c => row_call job c = true) (calls s) (calls (fst r))
  /\ ((counters (fst r) = count_created (counters s)
       /\ int_truthy (allow_create job) = true)
      \/ (counters (fst r) = count_updated (counters s)
          /\ str_truthy (unique_field job) = true
          /\ int_truthy (allow_update job) = true)
      \/ counters (fst r) = count_skipped (counters s)
      \/ counters (fst r) = count_error (counters s)).
Proof.
  unfold_row. row_cases; split_flags;
    try match goal with
        | H : str_truthy None = true |- _ => cbn in H; discriminate H
        end;
    (split; [reflexivity|]);
    (split; [intros rt Hrt; rewrite ?in_app_iff in Hrt; cbn [In] in Hrt;
             unfold sent_to;
             intuition (subst; auto)|]);
    (split; [intros c Hc; rewrite ?in_app_iff in Hc; cbn [In] in Hc;
             intuition (subst; cbn [row_call];
                        repeat match goal with
                               | H : _ = true |- _ => rewrite H
                               end; auto)|]);
    auto 6.
Qed.

Lemma process_rows_grows (excel_columns : list string) (total_rows : Z)
      (rows : list (list cell)) :
  forall (idx : Z) (s : @State St),
    let r := process_rows job excel_columns total_rows idx rows s in
    session_user (fst r) = session_user s
    /\ grows_by (sent_to (session_user s)) (realtime s) (realtime (fst r))
    /\ grows_by (fun c => row_call job c = true) (calls s) (calls (fst r)).
Proof.
  induction rows as [|row rows IH]; intros idx s; cbn [process_rows].
  - cbn [ret fst]. split; [reflexivity|]. split; apply grows_by_refl.
  - unfold bind.
    pose proof (process_row_grows excel_columns total_rows idx row s)
      as (H1 & H2 & H3 & _).
    pose proof (process_row_effect job excel_columns total_rows idx row s) as (H0 & _).
    cbv zeta in H0, H1, H2, H3.
    destruct (process_row job excel_columns total_rows idx row s) as [s1 r1].
    cbn [fst snd] in H0, H1, H2, H3. subst r1.
    destruct (IH (idx + 1) s1) as (I1 & I2 & I3). rewrite H1 in I1, I2.
    split; [exact I1|]. split; eapply grows_by_trans; eassumption.
Qed.

(** A property of the counters that every allowed way of counting a row
    keeps is kept by the loop. *)
Lemma process_rows_counters (P : Counters -> Prop) :
  (forall c, P c ->
             (int_truthy (allow_create job) = true -> P (count_created c))
             /\ (str_truthy (unique_field job) = true ->
                 int_truthy (allow_update job) = true -> P (count_updated c))
             /\ P (count_skipped c) /\ P (count_error c)) ->
  forall (excel_columns : list string) (total_rows : Z) (rows : list (list cell))
         (idx : Z) (s : @State St),
    P (counters s) ->
    P (counters (fst (process_rows job excel_columns total_rows idx rows s))).
Proof.
  intros HP excel_columns total_rows rows.
  induction rows as [|row rows IH]; intros idx s Hs; cbn [process_rows].
  - exact Hs.
  - unfold bind.
    pose proof (process_row_grows excel_columns total_rows idx row s)
      as (_ & _ & _ & H4).
    pose proof (process_row_effect job excel_columns total_rows idx row s) as (H0 & _).
    cbv zeta in H0, H4.
    destruct (process_row job excel_columns total_rows idx row s) as [s1 r1].
    cbn [fst snd] in H0, H4. subst r1.
    apply IH. destruct (HP (counters s) Hs) as (P1 & P2 & P3 & P4).
    destruct H4 as [[E F]|[[E [F G]]|[E|E]]]; rewrite E; auto.
Qed.

(** With both flags off a row writes nothing. *)
Lemma process_row_dry (excel_columns : list string) (total_rows idx : Z)
      (row : list cell) (s : @State St) :
  int_truthy (allow_create job) = false ->
  int_truthy (allow_update job) = false ->
  store (fst (process_row job excel_columns total_rows idx row s)) = store s.
Proof.
  intros Hc Hu. unfold_row. rewrite Hc, Hu. row_cases; reflexivity.
Qed.

Lemma process_rows_dry (excel_columns : list string) (total_rows : Z)
      (rows : list (list cell)) :
  int_truthy (allow_create job) = false ->
  int_truthy (allow_update job) = false ->
  forall (idx : Z) (s : @State St),
    store (fst (process_rows job excel_columns total_rows idx rows s)) = store s.
Proof.
  intros Hc Hu. induction rows as [|row rows IH]; intros idx s; cbn [process_rows].
  - reflexivity.
  - unfold bind.
    pose proof (process_row_dry excel_columns total_rows idx row s Hc Hu) as H1.
    pose proof (process_row_effect job excel_columns total_rows idx row s) as (H0 & _).
    cbv zeta in H0.
    destruct (process_row job excel_columns total_rows idx row s) as [s1 r1].
    cbn [fst snd] in H0, H1. subst r1. rewrite IH. exact H1.
Qed.

(** The error log of a row: nothing when the body returns, one entry under
    the title of the doctype when it raises. *)
Lemma process_row_error_log (excel_columns : list string) (total_rows idx : Z)
      (row : list cell) (s : @State St) :
  let body := row_body job excel_columns total_rows idx row s in
  let r := process_row job excel_columns total_rows idx row s in
  exists l,
    error_log (fst r) = error_log s ++ l
    /\ Forall (fun entry => log_title entry
                            = ("Excel Import Row Error - " ++ doctype_name job)%string) l
    /\ List.length l = (if returned (snd body) then 0%nat else 1%nat).
Proof.
  cbv zeta. unfold process_row, try_except.
  pose proof (row_body_effect job excel_columns total_rows idx row s) as (E1 & _).
  cbv zeta in E1.
  destruct (row_body job excel_columns total_rows idx row s) as [s1 [e|[]]];
    cbn [fst snd returned] in E1 |- *.
  - cbv [row_handler bind update_counters modify log_error fst snd error_log
         with_counters with_error_log].
    fold (error_log s1). rewrite E1. eexists. split; [reflexivity|].
    split; [constructor; [reflexivity|constructor] | reflexivity].
  - exists []. rewrite app_nil_r. split; [exact E1|]. split; [constructor|reflexivity].
Qed.

Lemma process_rows_error_log (excel_columns : list string) (total_rows : Z)
      (rows : list (list cell)) :
  forall (idx : Z) (s : @State St),
    let r := process_rows job excel_columns total_rows idx rows s in
    exists l,
      error_log (fst r) = error_log s ++ l
      /\ Forall (fun entry => log_title entry
                              = ("Excel Import Row Error - " ++ doctype_name job)%string) l
      /\ Z.of_nat (List.length l)
         = error_count (counters (fst r)) - error_count (counters s).
Proof.
  induction rows as [|row rows IH]; intros idx s; cbn [process_rows].
  - exists []. cbn [ret fst]. rewrite app_nil_r.
    split; [reflexivity|]. split; [constructor|]. cbn [List.length]. lia.
  - unfold bind.
    destruct (process_row_error_log excel_columns total_rows idx row s)
      as (l1 & L1 & L2 & L3).
    pose proof (process_row_effect job excel_columns total_rows idx row s)
      as (H0 & _ & H3 & _).
    cbv zeta in H0, H3, L1, L3.
    destruct (process_row job excel_columns total_rows idx row s) as [s1 r1].
    cbn [fst snd] in H0, H3, L1, L3. subst r1.
    destruct (IH (idx + 1) s1) as (l2 & M1 & M2 & M3). cbv zeta in M1, M3.
    exists (l1 ++ l2). rewrite M1, L1, <- app_assoc.
    split; [reflexivity|]. split; [apply Forall_app; split; assumption|].
    rewrite length_app, Nat2Z.inj_add, M3, L3.
    destruct (returned (snd (row_body job excel_columns total_rows idx row s))).
    + destruct H3 as [H3|[H3|H3]]; rewrite H3; cbn [error_count count_created
        count_updated count_skipped]; lia.
    + rewrite H3. cbn [error_count count_error]. lia.
Qed.


(** *** Whole runs *)

(** X2: after the loop the success counter is the sum of the created and the
    updated counters, and no counter is negative. *)
Theorem success_count_is_created_plus_updated (df : DataFrame) (s : @State St) :
  let c := counters (state_after_rows job df s) in
  success_count c = created_count c + updated_count c
  /\ 0 <= created_count c /\ 0 <= updated_count c
  /\ 0 <= skipped_count c /\ 0 <= error_count c.
Proof.
  cbv zeta. unfold state_after_rows.
  apply (process_rows_counters
           (fun c => success_count c = created_count c + updated_count c
                     /\ 0 <= created_count c /\ 0 <= updated_count c
                     /\ 0 <= skipped_count c /\ 0 <= error_count c)).
  - intros c (H1 & H2 & H3 & H4 & H5).
    cbn [count_created count_updated count_skipped count_error success_count
         created_count updated_count skipped_count error_count].
    repeat split; intros; lia.
  - cbn. repeat split; lia.
Qed.

Lemma calls_after_rows (df : DataFrame) (s : @State St) (c : Call) :
  In c (calls (state_after_rows job df s)) ->
  In c (calls s) \/ c = CallReadExcel (file_path job) \/ row_call job c = true.
Proof.
  unfold state_after_rows. intros Hc.
  destruct (process_rows_grows (df_columns df) (Z.of_nat (List.length (df_rows df)))
                               (df_rows df) 0
                               (with_counters (state_read job s) zero_counters))
    as (_ & _ & H3).
  destruct (H3 c Hc) as [H|H]; [|right; right; exact H].
  cbn [calls with_counters state_read with_calls] in H.
  apply in_app_or in H. destruct H as [H|[H|[]]]; [left; exact H|].
  right. left. symmetry. exact H.
Qed.

Lemma created_count_stays_zero (df : DataFrame) (s : @State St) :
  int_truthy (allow_create job) = false ->
  created_count (counters (state_after_rows job df s)) = 0.
Proof.
  intros Hflag. unfold state_after_rows.
  apply (process_rows_counters (fun c => created_count c = 0)).
  - intros c Hc. rewrite Hflag. repeat split; try discriminate; intros; exact Hc.
  - reflexivity.
Qed.

Lemma updated_count_stays_zero (df : DataFrame) (s : @State St) :
  str_truthy (unique_field job) && int_truthy (allow_update job) = false ->
  updated_count (counters (state_after_rows job df s)) = 0.
Proof.
  intros Hflag. unfold state_after_rows.
  apply (process_rows_counters (fun c => updated_count c = 0)).
  - intros c Hc. repeat split; try (intros; exact Hc).
    intros H1 H2. rewrite H1, H2 in Hflag. discriminate Hflag.
  - reflexivity.
Qed.

(** X3: with allow_create off, the loop creates nothing: it makes no
    new-document and no insert call, and the created counter stays 0. *)
Theorem allow_create_off_never_creates (df : DataFrame) (s : @State St) :
  int_truthy (allow_create job) = false ->
  created_count (counters (state_after_rows job df s)) = 0
  /\ forall c, In c (calls (state_after_rows job df s)) ->
               is_create_call c = true -> In c (calls s).
Proof.
  intros Hflag. split.
  - apply created_count_stays_zero. exact Hflag.
  - intros c Hc Hcreate.
    destruct (calls_after_rows df s c Hc) as [H|[H|H]]; [exact H| |].
    + subst c. discriminate Hcreate.
    + destruct c; try discriminate Hcreate; cbn [row_call] in H; congruence.
Qed.

(** X4: with allow_update off, the loop updates nothing: it makes no get_doc
    and no save call, and the updated counter stays 0. *)
Theorem allow_update_off_never_updates (df : DataFrame) (s : @State St) :
  int_truthy (allow_update job) = false ->
  updated_count (counters (state_after_rows job df s)) = 0
  /\ forall c, In c (calls (state_after_rows job df s)) ->
               is_update_call c = true -> In c (calls s).
Proof.
  intros Hflag. split.
  - apply updated_count_stays_zero. rewrite Hflag. apply andb_false_r.
  - intros c Hc Hupdate.
    destruct (calls_after_rows df s c Hc) as [H|[H|H]]; [exact H| |].
    + subst c. discriminate Hupdate.
    + destruct c; try discriminate Hupdate; cbn [row_call] in H;
        rewrite Hflag, andb_false_r in H; discriminate H.
Qed.

(** X5: without a unique field the loop looks nothing up and updates nothing:
    no get_value, get_doc or save call is made and every row that is counted
    is created, skipped or errored. *)
Theorem no_unique_field_never_looks_up (df : DataFrame) (s : @State St) :
  str_truthy (unique_field job) = false ->
  updated_count (counters (state_after_rows job df s)) = 0
  /\ forall c, In c (calls (state_after_rows job df s)) ->
               is_lookup_call c = true \/ is_update_call c = true -> In c (calls s).
Proof.
  intros Hu. split.
  - apply updated_count_stays_zero. rewrite Hu. reflexivity.
  - intros c Hc Hkind.
    destruct (calls_after_rows df s c Hc) as [H|[H|H]]; [exact H| |].
    + subst c. destruct Hkind as [Hk|Hk]; discriminate Hk.
    + destruct c; cbn [row_call is_lookup_call is_update_call] in H, Hkind;
        rewrite ?Hu in H; cbn [andb] in H;
        try discriminate H; destruct Hkind as [Hk|Hk]; discriminate Hk.
Qed.

(** X6: with both flags off the loop is a dry run: the store is left as it
    was and every row is skipped or errored. *)
Theorem dry_run_leaves_the_store (df : DataFrame) (s : @State St) :
  int_truthy (allow_create job) = false ->
  int_truthy (allow_update job) = false ->
  store (state_after_rows job df s) = store s
  /\ skipped_count (counters (state_after_rows job df s))
     + error_count (counters (state_after_rows job df s))
     = Z.of_nat (List.length (df_rows df)).
Proof.
  intros Hc Hu. split.
  - unfold state_after_rows. rewrite process_rows_dry by assumption. reflexivity.
  - pose proof (created_count_stays_zero df s Hc) as H1.
    assert (H2 : updated_count (counters (state_after_rows job df s)) = 0)
      by (apply updated_count_stays_zero; rewrite Hu; apply andb_false_r).
    pose proof (process_rows_effect job (df_columns df)
                  (Z.of_nat (List.length (df_rows df))) (df_rows df) 0
                  (with_counters (state_read job s) zero_counters))
      as (_ & _ & H3 & _).
    cbv zeta in H3. fold (state_after_rows job df s) in H3.
    unfold rows_counted in H3. rewrite H1, H2 in H3.
    cbn [counters with_counters zero_counters created_count updated_count
         skipped_count error_count] in H3. lia.
Qed.

(** X7: the loop writes one entry to the error log for every row it counts
    as an error, under the title that names the doctype. *)
Theorem one_log_entry_per_failed_row (df : DataFrame) (s : @State St) :
  exists l,
    error_log (state_after_rows job df s) = error_log s ++ l
    /\ Forall (fun entry => log_title entry
                            = ("Excel Import Row Error - " ++ doctype_name job)%string) l
    /\ Z.of_nat (List.length l) = error_count (counters (state_after_rows job df s)).
Proof.
  unfold state_after_rows.
  destruct (process_rows_error_log (df_columns df) (Z.of_nat (List.length (df_rows df)))
                                   (df_rows df) 0
                                   (with_counters (state_read job s) zero_counters))
    as (l & L1 & L2 & L3).
  exists l. split; [exact L1|]. split; [exact L2|].
  cbv zeta in L3. rewrite L3. cbn. lia.
Qed.


Lemma import_handler_realtime (e : exn) (s : @State St) :
  realtime (fst (import_handler job e s))
  = realtime s ++ [{| rt_event := "excel_import_progress";
                      rt_message := failure_event e;
                      rt_user := session_user s |}]
  /\ calls (fst (import_handler job e s)) = calls s ++ [CallRollback]
  /\ store (fst (import_handler job e s)) = db_rollback (store s).
Proof.
  cbv [import_handler bind log_error publish_progress modify fst snd
       with_error_log with_realtime with_store with_calls
       realtime counters calls store session_user error_log failure_event].
  repeat split.
Qed.

(** X8: everything a run publishes goes out on the topic
    excel_import_progress and to the user the job was started for. *)
Theorem events_go_to_the_job_user (s : @State St) :
  grows_by (sent_to (user job)) (realtime s)
           (realtime (fst (process_excel_import job s))).
Proof.
  rewrite process_excel_import_unfold. unfold try_except.
  set (s0 := with_user s (user job)).
  pose proof (import_body_cases job s0) as Hcases.
  destruct (read_excel (file_path job) (store s0)) as [e|df].
  { rewrite Hcases. destruct (import_handler_realtime e (state_read job s0)) as (H & _).
    rewrite H. apply grows_by_snoc. split; reflexivity. }
  cbv zeta in Hcases.
  destruct (Z.of_nat (List.length (df_rows df)) <=? 0).
  { rewrite Hcases. cbv [publish_progress modify fst]. cbn [realtime with_realtime].
    apply grows_by_snoc. split; reflexivity. }
  destruct (process_rows_grows (df_columns df) (Z.of_nat (List.length (df_rows df)))
                               (df_rows df) 0
                               (with_counters (state_read job s0) zero_counters))
    as (L1 & L2 & _).
  fold (state_after_rows job df s0) in L1, L2.
  cbn [session_user realtime with_counters state_read with_calls s0 with_user] in L1, L2.
  destruct (db_commit (store (state_after_rows job df s0))) as [st [e|[]]].
  - rewrite Hcases.
    destruct (import_handler_realtime e (state_committed job df s0 st)) as (H & _).
    rewrite H. unfold state_committed at 1 2.
    cbn [realtime session_user with_store with_calls].
    eapply grows_by_trans; [exact L2|]. apply grows_by_snoc.
    split; [exact L1 | reflexivity].
  - cbv zeta in Hcases. rewrite Hcases.
    pose proof (remove_uploaded_file_effect job (state_committed job df s0 st))
      as (_ & Hr & _ & Hu).
    cbv zeta in Hr, Hu.
    set (s_clean := fst (remove_uploaded_file job (state_committed job df s0 st))) in *.
    cbv [publish_progress modify fst]. cbn [realtime with_realtime].
    rewrite Hr, Hu. unfold state_committed.
    cbn [realtime session_user with_store with_calls].
    eapply grows_by_trans; [exact L2|]. apply grows_by_snoc.
    split; [exact L1 | reflexivity].
Qed.

(** X9: when the commit raises after the rows were processed, the run makes
    exactly two more calls, the commit and a rollback: the uploaded file is
    neither removed nor looked for, and the store is the rolled-back one. *)
Theorem failed_commit_rolls_back_and_keeps_file
        (s : @State St) (df : DataFrame) (st : St) (e : exn) :
  read_excel (file_path job) (store s) = inr df ->
  0 < Z.of_nat (List.length (df_rows df)) ->
  db_commit (store (state_after_rows job df (with_user s (user job)))) = (st, inl e) ->
  let r := process_excel_import job s in
  let s_loop := state_after_rows job df (with_user s (user job)) in
  calls (fst r) = calls s_loop ++ [CallCommit; CallRollback]
  /\ store (fst r) = db_rollback st
  /\ progress_events (fst r) = progress_events s_loop ++ [failure_event e].
Proof.
  intros Hread Hpos Hcommit. cbv zeta.
  rewrite process_excel_import_unfold. unfold try_except.
  set (s0 := with_user s (user job)) in *.
  pose proof (import_body_cases job s0) as Hcases.
  change (store s0) with (store s) in Hcases. rewrite Hread in Hcases.
  cbv zeta in Hcases. apply Z.leb_gt in Hpos. rewrite Hpos, Hcommit in Hcases.
  rewrite Hcases.
  destruct (import_handler_realtime e (state_committed job df s0 st)) as (_ & H2 & H3).
  pose proof (import_handler_effect job e (state_committed job df s0 st)) as (_ & H4 & _).
  rewrite H2, H3, H4. unfold state_committed, progress_events.
  cbn [calls store realtime with_store with_calls].
  rewrite <- app_assoc. repeat split.
Qed.

(** X10: every progress value a run publishes lies between 0 and 100. *)
Theorem published_percentages_within_bounds (s : @State St) :
  exists evs,
    progress_events (fst (process_excel_import job s)) = progress_events s ++ evs
    /\ Forall (fun ev => 0 <= progress ev <= 100) evs.
Proof.
  rewrite process_excel_import_unfold. unfold try_except.
  set (s0 := with_user s (user job)).
  pose proof (import_body_cases job s0) as Hcases.
  destruct (read_excel (file_path job) (store s0)) as [e|df].
  { rewrite Hcases.
    pose proof (import_handler_effect job e (state_read job s0)) as (_ & H2 & _).
    exists [failure_event e]. split; [exact H2|].
    constructor; [cbn; lia | constructor]. }
  cbv zeta in Hcases.
  destruct (Z.of_nat (List.length (df_rows df)) <=? 0) eqn:Hz.
  { rewrite Hcases. exists [no_data_event]. split.
    - cbv [publish_progress modify fst snd progress_events with_realtime realtime
           state_read with_calls]. rewrite map_app. reflexivity.
    - constructor; [cbn; lia | constructor]. }
  apply Z.leb_gt in Hz.
  destruct (loop_events_ordered job df s0 Hz) as (evs & He1 & _ & _ & He4).
  apply Forall_map in He4.
  destruct (db_commit (store (state_after_rows job df s0))) as [st [e|[]]].
  - rewrite Hcases.
    pose proof (import_handler_effect job e (state_committed job df s0 st)) as (_ & H2 & _).
    exists (evs ++ [failure_event e]). split.
    + rewrite H2. unfold state_committed, progress_events in He1 |- *.
      cbn [realtime with_store with_calls]. rewrite He1, <- app_assoc. reflexivity.
    + apply Forall_app. split; [exact He4|]. constructor; [cbn; lia | constructor].
  - cbv zeta in Hcases. rewrite Hcases.
    pose proof (remove_uploaded_file_effect job (state_committed job df s0 st))
      as (_ & Hr & _).
    cbv zeta in Hr.
    set (s_clean := fst (remove_uploaded_file job (state_committed job df s0 st))) in *.
    eexists (evs ++ [_]). split.
    + cbv [publish_progress modify fst snd]. unfold progress_events in He1 |- *.
      cbn [realtime with_realtime]. rewrite map_app, Hr.
      unfold state_committed. cbn [realtime with_store with_calls map rt_message].
      rewrite He1, <- app_assoc. reflexivity.
    + apply Forall_app. split; [exact He4|]. constructor; [cbn; lia | constructor].
Qed.

End EngineMore.

(** ** The stored mapping *)

Lemma build_field_mapping_snoc (rows : list MappingRow) (row : MappingRow) :
  build_field_mapping (rows ++ [row])
  = dict_set (build_field_mapping rows) (excel_field_name row) (doctype_field_name row).
Proof. unfold build_field_mapping. rewrite fold_left_app. reflexivity. Qed.

Lemma field_mapping_keys (rows : list MappingRow) :
  NoDup (dict_keys (build_field_mapping rows)).
Proof.
  induction rows as [|row rows IH] using rev_ind; [constructor|].
  rewrite build_field_mapping_snoc. apply dict_set_keys_NoDup. exact IH.
Qed.

(** X13: the mapping built from the rows of a mapping document is a proper
    dictionary: its keys are distinct, and they are the Excel field names of
    the rows. *)
Theorem field_mapping_keys_are_distinct (rows : list MappingRow) :
  NoDup (dict_keys (build_field_mapping rows))
  /\ forall k, In k (dict_keys (build_field_mapping rows))
               <-> exists row, In row rows /\ excel_field_name row = k.
Proof.
  induction rows as [|row rows IH] using rev_ind.
  - split; [constructor|]. intros k. split; [intros [] | intros [row [[] _]]].
  - destruct IH as [IH1 IH2]. rewrite build_field_mapping_snoc. split.
    + apply dict_set_keys_NoDup. exact IH1.
    + intros k. rewrite dict_set_keys_In, IH2. split.
      * intros [E|[r [Hr E]]].
        -- exists row. split; [apply in_or_app; right; left; reflexivity | symmetry; exact E].
        -- exists r. split; [apply in_or_app; left; exact Hr | exact E].
      * intros [r [Hr E]]. apply in_app_or in Hr. destruct Hr as [Hr|[Hr|[]]].
        -- right. exists r. split; assumption.
        -- left. subst r. symmetry. exact E.
Qed.

(** X14: when several rows of the mapping document name the same Excel
    field, the last of them decides the target field; a field that no row
    names is not in the mapping. *)
Theorem field_mapping_last_row_wins (rows : list MappingRow) (k : string) :
  dict_get (build_field_mapping rows) k
  = option_map doctype_field_name
      (find (fun row => (excel_field_name row =? k)%string) (rev rows)).
Proof.
  induction rows as [|row rows IH] using rev_ind.
  - reflexivity.
  - rewrite build_field_mapping_snoc, rev_app_distr. cbn [rev app find].
    destruct (String.eqb_spec (excel_field_name row) k) as [E|E].
    + subst k. rewrite dict_get_set_same. reflexivity.
    + rewrite dict_get_set_other by exact E. exact IH.
Qed.

(** ** More on the preview *)

Lemma filter_nil_iff {A : Type} (f : A -> bool) (l : list A) :
  filter f l = [] <-> forall x, In x l -> f x = false.
Proof.
  induction l as [|a l IH]; cbn [filter].
  - split; [intros _ x [] | reflexivity].
  - destruct (f a) eqn:E.
    + split; [discriminate|]. intros H. rewrite (H a (or_introl eq_refl)) in E. discriminate.
    + rewrite IH. split.
      * intros H x [Hx|Hx]; [subst x; exact E | exact (H x Hx)].
      * intros H x Hx. apply H. right. exact Hx.
Qed.

(** X15: the preview reports nothing missing exactly when the headers of the
    sheet and the keys of the mapping are the same names. *)
Theorem nothing_missing_iff_same_names (M : dict string) (H : list string) :
  has_missing (preview_of M H) = false
  <-> forall name, In name H <-> In name (dict_keys M).
Proof.
  unfold preview_of. cbn [has_missing]. rewrite orb_false_iff.
  assert (Hlen : forall l : list string, (0 <? Z.of_nat (List.length l)) = false <-> l = []).
  { intros [|a l]; cbn [List.length]; split; try reflexivity; discriminate. }
  rewrite !Hlen, !filter_nil_iff. split.
  - intros [H1 H2] name. split.
    + intros Hin. specialize (H1 name Hin). apply negb_false_iff in H1.
      rewrite dict_contains_keys in H1. apply list_contains_In. exact H1.
    + intros Hin. specialize (H2 name Hin). apply negb_false_iff in H2.
      apply list_contains_In. exact H2.
  - intros Hsame. split; intros name Hin; apply negb_false_iff.
    + rewrite dict_contains_keys. apply list_contains_In. apply Hsame. exact Hin.
    + apply list_contains_In. apply Hsame. exact Hin.
Qed.

(** X16: the preview succeeds exactly when the file resolves, the stored
    mapping is not empty and the header row can be read, and its result is
    then the classification of that header against that mapping; a mapping
    that is empty or cannot be loaded gives the error that names the
    doctype, whatever the sheet holds. *)
Theorem preview_succeeds_iff_inputs_resolve
        (resolve : string -> exn + string)
        (stored_mapping : string -> option (list MappingRow))
        (read_excel_header : string -> exn + list string)
        (load_traceback : string) (traceback_of : exn -> string)
        (doctype_name_ file_url_ : string) (p : Preview) :
  (fst (validate_import_preview resolve stored_mapping read_excel_header
                                load_traceback traceback_of
                                doctype_name_ file_url_) = PreviewSuccess p
   <-> exists file_path_ excel_columns,
         resolve file_url_ = inr file_path_
         /\ fst (get_field_mapping load_traceback (stored_mapping doctype_name_)) <> []
         /\ read_excel_header file_path_ = inr excel_columns
         /\ p = preview_of (fst (get_field_mapping load_traceback
                                                   (stored_mapping doctype_name_)))
                           excel_columns)
  /\ (forall file_path_,
         resolve file_url_ = inr file_path_ ->
         fst (get_field_mapping load_traceback (stored_mapping doctype_name_)) = [] ->
         fst (validate_import_preview resolve stored_mapping read_excel_header
                                      load_traceback traceback_of
                                      doctype_name_ file_url_)
         = PreviewError ("No field mappings found for " ++ doctype_name_)%string).
Proof.
  unfold validate_import_preview, preview_failed. split.
  - split.
    + destruct (resolve file_url_) as [e|file_path_]; [discriminate|].
      destruct (get_field_mapping load_traceback (stored_mapping doctype_name_))
        as [[|kv fm] logged] eqn:Hm; [discriminate|].
      destruct (read_excel_header file_path_) as [e|cols] eqn:Hh; [discriminate|].
      cbn [fst]. intros E. injection E as E. exists file_path_, cols.
      repeat split; [discriminate | exact Hh | symmetry; exact E].
    + intros (file_path_ & cols & H1 & H2 & H3 & H4). rewrite H1.
      destruct (get_field_mapping load_traceback (stored_mapping doctype_name_))
        as [[|kv fm] logged]; [contradiction H2; reflexivity|].
      rewrite H3, H4. reflexivity.
  - intros file_path_ H1 H2. rewrite H1.
    destruct (get_field_mapping load_traceback (stored_mapping doctype_name_))
      as [fm logged]. cbn [fst] in H2. subst fm. reflexivity.
Qed.

(** X25: a preview that succeeds writes nothing to the error log; a preview
    that fails writes one entry under the title Import Preview Error, after
    an entry under Get Field Mapping Error when the file resolved and the
    mapping document could not be loaded, and after nothing otherwise. *)
Theorem preview_logs_its_failures
        (resolve : string -> exn + string)
        (stored_mapping : string -> option (list MappingRow))
        (read_excel_header : string -> exn + list string)
        (load_traceback : string) (traceback_of : exn -> string)
        (doctype_name_ file_url_ : string) :
  let r := validate_import_preview resolve stored_mapping read_excel_header
                                   load_traceback traceback_of
                                   doctype_name_ file_url_ in
  match fst r with
  | PreviewSuccess _ => snd r = []
  | PreviewError _ =>
      exists entry,
        log_title entry = "Import Preview Error"
        /\ snd r
           = (match resolve file_url_, stored_mapping doctype_name_ with
              | inr _, None =>
                  [{| log_message := load_traceback;
                      log_title := "Get Field Mapping Error" |}]
              | _, _ => []
              end) ++ [entry]
  end.
Proof.
  cbv zeta. unfold validate_import_preview, preview_failed.
  destruct (resolve file_url_) as [e|file_path_]; cbn [fst snd].
  - eexists. split; [|reflexivity]. reflexivity.
  - destruct (stored_mapping doctype_name_) as [rows|]; cbn [get_field_mapping].
    + destruct (build_field_mapping rows) as [|kv fm]; cbn [fst snd].
      * eexists. split; [|reflexivity]. reflexivity.
      * destruct (read_excel_header file_path_) as [e|cols]; cbn [fst snd].
        -- eexists. split; [|reflexivity]. reflexivity.
        -- reflexivity.
    + cbn [fst snd]. eexists. split; [|reflexivity]. reflexivity.
Qed.

(** ** More on the doctype query *)

(** X17: with a page length other than 0 the query returns at most page_len
    names; with the page length 0 it returns, whatever the start, every name
    that any page returns.  Each name returned is the name of a doctype of
    the table that is in module Cipl App and is not a child table. *)
Theorem doctype_query_returns_a_page_of_module_doctypes
        (table : list DocTypeRow) (txt : string) (start page_len : nat) :
  (page_len <> 0%nat ->
   (List.length (get_cipl_app_doctypes table txt start page_len) <= page_len)%nat)
  /\ (forall (start' n : nat) item,
         In item (get_cipl_app_doctypes table txt start' (S n)) ->
         In item (get_cipl_app_doctypes table txt start 0))
  /\ forall item, In item (get_cipl_app_doctypes table txt start page_len) ->
                  exists row, In row table /\ item = [dt_name row]
                              /\ dt_module row = "Cipl App" /\ dt_istable row = 0.
Proof.
  unfold get_cipl_app_doctypes. split; [|split].
  - intros Hlen. rewrite length_map. unfold get_all.
    destruct page_len as [|n]; [contradiction Hlen; reflexivity|].
    rewrite length_firstn. apply Nat.le_min_l.
  - intros start' n item Hin. apply in_map_iff in Hin. destruct Hin as [row [E Hin]].
    apply in_map_iff. exists row. split; [exact E|].
    unfold get_all in Hin |- *. apply In_firstn, In_skipn in Hin. exact Hin.
  - intros item Hin. apply in_map_iff in Hin. destruct Hin as [row [E Hin]].
    apply get_all_In in Hin. destruct Hin as [Hrow Hconds].
    exists row. split; [exact Hrow|]. split; [symmetry; exact E|].
    assert (Hboth : cond_holds row "module" (FEquals (PyStr "Cipl App")) = true
                    /\ cond_holds row "istable" (FEquals (PyInt 0)) = true).
    { destruct (negb (txt =? "")%string); cbn [dict_set String.eqb Ascii.eqb Bool.eqb
                                                forallb fst snd] in Hconds;
        rewrite !andb_true_iff in Hconds; tauto. }
    destruct Hboth as [Hm Ht]. unfold cond_holds in Hm, Ht. cbn in Hm, Ht.
    split; [apply String.eqb_eq; exact Hm | apply Z.eqb_eq; exact Ht].
Qed.

(** ** The file resolver *)

Lemma lstrip_slash_idempotent (s : string) : lstrip_slash (lstrip_slash s) = lstrip_slash s.
Proof.
  induction s as [|c s IH]; cbn [lstrip_slash]; [reflexivity|].
  destruct (Ascii.eqb_spec c "/") as [E|E]; [exact IH|].
  cbn [lstrip_slash]. destruct (Ascii.eqb_spec c "/"); [contradiction|reflexivity].
Qed.

Lemma basename_has_no_slash (p : string) : has_slash (basename p) = false.
Proof.
  induction p as [|c p IH]; cbn [basename]; [reflexivity|].
  destruct (Ascii.eqb_spec c "/") as [E|E]; [exact IH|].
  destruct (has_slash p) eqn:Hp; [exact IH|].
  cbn [has_slash]. rewrite Hp. destruct (Ascii.eqb_spec c "/"); [contradiction|reflexivity].
Qed.

Section FileResolverFacts.
Variable site_path : string.
Variable path_exists : string -> bool.

Lemma validate_excel_file_cases (file_url : string) :
  let u := lstrip_slash file_url in
  let found :=
    if path_exists (primary_candidate site_path u)
    then Some (primary_candidate site_path u)
    else if path_exists (public_candidate site_path u)
         then Some (public_candidate site_path u) else None in
  validate_excel_file site_path path_exists file_url
  = match found with
    | None => inl (Exception ("File not found: " ++ u)%string)
    | Some p =>
        if accepted_extension p then inr p
        else inl (Exception "Invalid file format. Please upload Excel file (.xlsx or .xls)")
    end.
Proof.
  cbv zeta. unfold validate_excel_file, accepted_extension.
  fold (primary_candidate site_path (lstrip_slash file_url)).
  fold (public_candidate site_path (lstrip_slash file_url)).
  destruct (path_exists (primary_candidate site_path (lstrip_slash file_url)));
    cbn [negb].
  - destruct (list_contains _ valid_extensions); reflexivity.
  - destruct (path_exists (public_candidate site_path (lstrip_slash file_url)));
      cbn [negb]; [|reflexivity].
    destruct (list_contains _ valid_extensions); reflexivity.
Qed.

(** X18: a path the resolver returns exists and has the extension .xlsx or
    .xls in any letter case; it is the primary candidate, or the public
    candidate when the primary one does not exist. *)
Theorem resolved_file_exists_with_excel_extension (file_url file_path_ : string) :
  validate_excel_file site_path path_exists file_url = inr file_path_ ->
  path_exists file_path_ = true
  /\ (lower (splitext_ext file_path_) = ".xlsx" \/ lower (splitext_ext file_path_) = ".xls")
  /\ (file_path_ = primary_candidate site_path (lstrip_slash file_url)
      \/ (path_exists (primary_candidate site_path (lstrip_slash file_url)) = false
          /\ file_path_ = public_candidate site_path (lstrip_slash file_url))).
Proof.
  rewrite validate_excel_file_cases. cbv zeta.
  assert (Hext : forall p, accepted_extension p = true ->
                           lower (splitext_ext p) = ".xlsx" \/ lower (splitext_ext p) = ".xls").
  { intros p Hp. unfold accepted_extension in Hp. apply list_contains_In in Hp.
    destruct Hp as [Hp|[Hp|[]]]; [left|right]; symmetry; exact Hp. }
  destruct (path_exists (primary_candidate site_path (lstrip_slash file_url))) eqn:H1.
  - destruct (accepted_extension _) eqn:Ha; [|discriminate].
    intros E. injection E as E. subst file_path_.
    split; [exact H1|]. split; [exact (Hext _ Ha)|]. left. reflexivity.
  - destruct (path_exists (public_candidate site_path (lstrip_slash file_url))) eqn:H2;
      [|discriminate].
    destruct (accepted_extension _) eqn:Ha; [|discriminate].
    intros E. injection E as E. subst file_path_.
    split; [exact H2|]. split; [exact (Hext _ Ha)|]. right. split; reflexivity.
Qed.

(** X19: the resolver fails in two ways only.  It reports the file as not
    found, naming the reference without its leading separators, exactly when
    neither candidate exists, whatever the extension; it reports an invalid
    format only for a candidate that exists. *)
Theorem resolver_errors (file_url : string) (e : exn) :
  validate_excel_file site_path path_exists file_url = inl e ->
  (e = Exception ("File not found: " ++ lstrip_slash file_url)%string
   /\ path_exists (primary_candidate site_path (lstrip_slash file_url)) = false
   /\ path_exists (public_candidate site_path (lstrip_slash file_url)) = false)
  \/ (e = Exception "Invalid file format. Please upload Excel file (.xlsx or .xls)"
      /\ exists p, path_exists p = true /\ accepted_extension p = false
                   /\ (p = primary_candidate site_path (lstrip_slash file_url)
                       \/ p = public_candidate site_path (lstrip_slash file_url))).
Proof.
  rewrite validate_excel_file_cases. cbv zeta.
  destruct (path_exists (primary_candidate site_path (lstrip_slash file_url))) eqn:H1.
  - destruct (accepted_extension _) eqn:Ha; [discriminate|].
    intros E. injection E as E. right. split; [symmetry; exact E|].
    eexists. split; [exact H1|]. split; [exact Ha|]. left. reflexivity.
  - destruct (path_exists (public_candidate site_path (lstrip_slash file_url))) eqn:H2.
    + destruct (accepted_extension _) eqn:Ha; [discriminate|].
      intros E. injection E as E. right. split; [symmetry; exact E|].
      eexists. split; [exact H2|]. split; [exact Ha|]. right. reflexivity.
    + intros E. injection E as E. left. split; [symmetry; exact E|]. split; reflexivity.
Qed.

(** X20: leading separators of a reference do not matter: the resolver gives
    the same answer for a reference and for the reference stripped of them. *)
Theorem leading_slashes_are_ignored (file_url : string) :
  validate_excel_file site_path path_exists (lstrip_slash file_url)
  = validate_excel_file site_path path_exists file_url
  /\ validate_excel_file site_path path_exists (String "/" file_url)
     = validate_excel_file site_path path_exists file_url.
Proof.
  split.
  - rewrite !validate_excel_file_cases. cbv zeta.
    rewrite lstrip_slash_idempotent. reflexivity.
  - rewrite !validate_excel_file_cases. reflexivity.
Qed.
End FileResolverFacts.

(** ** Starting an import *)

Section StartFacts.
Variable site_path : string.
Variable path_exists : string -> bool.
Variable mapping_exists : string -> bool.
Variable load_mapping_doc : string -> option MappingDoc.
Variable py_int : pyval -> exn + Z.
Variable current_user : string.
Variable enqueue : Enqueued -> exn + unit.
Variable traceback_of : exn -> string.
Variable load_traceback : string.

Lemma get_unique_field_truthy (doc : option MappingDoc) :
  get_unique_field doc = None \/ str_truthy (get_unique_field doc) = true.
Proof.
  destruct doc as [doc|]; cbn [get_unique_field]; [|left; reflexivity].
  destruct (str_truthy (doc_unique_field doc)) eqn:E; [right; exact E | left; reflexivity].
Qed.

Lemma prepare_job_sound (doctype_name_ file_url_ : string)
      (allow_create_ allow_update_ : pyval) (logged : list ErrorLog) (job : Job) :
  prepare_job site_path path_exists mapping_exists load_mapping_doc py_int current_user
              load_traceback doctype_name_ file_url_ allow_create_ allow_update_
  = (logged, inr job) ->
  logged = []
  /\ doctype_name_ <> "" /\ file_url_ <> ""
  /\ mapping_exists doctype_name_ = true
  /\ doctype_name job = doctype_name_
  /\ file_url job = file_url_
  /\ validate_excel_file site_path path_exists file_url_ = inr (file_path job)
  /\ field_mapping job <> []
  /\ NoDup (dict_keys (field_mapping job))
  /\ (unique_field job = None \/ str_truthy (unique_field job) = true)
  /\ py_int allow_create_ = inr (allow_create job)
  /\ py_int allow_update_ = inr (allow_update job)
  /\ user job = current_user.
Proof.
  unfold prepare_job.
  destruct (String.eqb_spec doctype_name_ "") as [E1|E1]; [discriminate|].
  destruct (String.eqb_spec file_url_ "") as [E2|E2]; [discriminate|]. cbn [orb].
  destruct (mapping_exists doctype_name_) eqn:Hm; [|discriminate]. cbn [negb].
  destruct (validate_excel_file site_path path_exists file_url_) as [e|p] eqn:Hv;
    [discriminate|].
  unfold get_field_mapping.
  destruct (option_map mapped_field (load_mapping_doc doctype_name_)) as [rows|];
    [|discriminate].
  destruct (build_field_mapping rows) as [|kv fm] eqn:Hfm; [discriminate|].
  destruct (py_int allow_create_) as [e|create] eqn:Hc; [discriminate|].
  destruct (py_int allow_update_) as [e|update] eqn:Hu; [discriminate|].
  intros E. injection E as E0 E. subst job logged.
  cbn [doctype_name file_url file_path field_mapping unique_field allow_create
       allow_update user].
  repeat split; try assumption; try reflexivity; try discriminate.
  - rewrite <- Hfm. apply field_mapping_keys.
  - apply get_unique_field_truthy.
Qed.

(** What a failed preparation has logged: nothing, or the entry of
    get_field_mapping when the mapping document exists and cannot be
    loaded. *)
Lemma prepare_job_failure (doctype_name_ file_url_ : string)
      (allow_create_ allow_update_ : pyval) (logged : list ErrorLog) (e : exn) :
  prepare_job site_path path_exists mapping_exists load_mapping_doc py_int current_user
              load_traceback doctype_name_ file_url_ allow_create_ allow_update_
  = (logged, inl e) ->
  logged = []
  \/ (logged = [{| log_message := load_traceback;
                   log_title := "Get Field Mapping Error" |}]
      /\ mapping_exists doctype_name_ = true
      /\ load_mapping_doc doctype_name_ = None
      /\ e = Exception ("No field mappings found for " ++ doctype_name_)%string).
Proof.
  unfold prepare_job.
  destruct ((doctype_name_ =? "")%string || (file_url_ =? "")%string);
    [intros E; injection E as E _; left; symmetry; exact E|].
  destruct (mapping_exists doctype_name_) eqn:Hm; cbn [negb];
    [|intros E; injection E as E _; left; symmetry; exact E].
  destruct (validate_excel_file site_path path_exists file_url_) as [e0|p];
    [intros E; injection E as E _; left; symmetry; exact E|].
  unfold get_field_mapping.
  destruct (load_mapping_doc doctype_name_) as [doc|] eqn:Hl; cbn [option_map].
  - destruct (build_field_mapping (mapped_field doc)) as [|kv fm];
      [intros E; injection E as E _; left; symmetry; exact E|].
    destruct (py_int allow_create_) as [e1|create];
      [intros E; injection E as E _; left; symmetry; exact E|].
    destruct (py_int allow_update_) as [e2|update];
      [intros E; injection E as E _; left; symmetry; exact E | discriminate].
  - intros E. right. split; [congruence|]. split; [reflexivity|].
    split; [reflexivity|]. congruence.
Qed.

(** X21: a start that returns has enqueued exactly one job, on the long
    queue with a timeout of 3000, and logged nothing.  The job carries the
    resolved path of the file, a non-empty mapping with distinct keys, a
    unique field that is None or a non-empty name, the two flags converted
    to integers and the session user; a mapping document exists for its
    doctype. *)
Theorem start_enqueues_one_validated_job
        (doctype_name_ file_url_ : string) (allow_create_ allow_update_ : pyval)
        (st st' : StartState) (message_ : string) :
  start_excel_import site_path path_exists mapping_exists load_mapping_doc py_int
                     current_user enqueue traceback_of load_traceback
                     doctype_name_ file_url_ allow_create_ allow_update_ st
  = (st', inr message_) ->
  exists job,
    enqueued st' = enqueued st
                   ++ [{| enq_queue := "long"; enq_timeout := 3000; enq_job := job |}]
    /\ start_errors st' = start_errors st
    /\ mapping_exists doctype_name_ = true
    /\ doctype_name job = doctype_name_
    /\ validate_excel_file site_path path_exists file_url_ = inr (file_path job)
    /\ field_mapping job <> []
    /\ NoDup (dict_keys (field_mapping job))
    /\ (unique_field job = None \/ str_truthy (unique_field job) = true)
    /\ py_int allow_create_ = inr (allow_create job)
    /\ py_int allow_update_ = inr (allow_update job)
    /\ user job = current_user.
Proof.
  unfold start_excel_import.
  destruct (prepare_job site_path path_exists mapping_exists load_mapping_doc py_int
                        current_user load_traceback doctype_name_ file_url_
                        allow_create_ allow_update_)
    as [logged [e|job]] eqn:Hp; [discriminate|].
  destruct (enqueue _) as [e|[]]; [discriminate|].
  intros E. injection E as E _. subst st'. exists job.
  destruct (prepare_job_sound _ _ _ _ _ _ Hp)
    as (H0 & _ & _ & H3 & H4 & _ & H6 & H7 & H8 & H9 & H10 & H11 & H12).
  subst logged. cbn [enqueued start_errors]. rewrite app_nil_r.
  repeat split; assumption.
Qed.

(** X22: a start that fails enqueues nothing and raises the message of the
    failure.  The last entry it logs is the one under the title Excel Import
    Start Error; before it the request logs nothing, except the entry of
    get_field_mapping (Get Field Mapping Error) when the mapping document
    exists and cannot be loaded.  An empty doctype name or file reference
    fails with the message that both are required, before anything else is
    looked at, and logs the one entry. *)
Theorem failed_start_enqueues_nothing
        (doctype_name_ file_url_ : string) (allow_create_ allow_update_ : pyval)
        (st : StartState) :
  let r := start_excel_import site_path path_exists mapping_exists load_mapping_doc
                              py_int current_user enqueue traceback_of load_traceback
                              doctype_name_ file_url_ allow_create_ allow_update_ st in
  (forall e, snd r = inl e ->
             enqueued (fst r) = enqueued st
             /\ exists earlier entry,
                  start_errors (fst r) = start_errors st ++ earlier ++ [entry]
                  /\ log_title entry = "Excel Import Start Error"
                  /\ (earlier = []
                      \/ (earlier = [{| log_message := load_traceback;
                                        log_title := "Get Field Mapping Error" |}]
                          /\ mapping_exists doctype_name_ = true
                          /\ load_mapping_doc doctype_name_ = None
                          /\ e = Exception ("No field mappings found for "
                                            ++ doctype_name_)%string)))
  /\ (doctype_name_ = "" \/ file_url_ = "" ->
      snd r = inl (Exception "Doctype name and file URL are required")
      /\ exists entry, start_errors (fst r) = start_errors st ++ [entry]).
Proof.
  cbv zeta. unfold start_excel_import. split.
  - intros e0.
    destruct (prepare_job site_path path_exists mapping_exists load_mapping_doc py_int
                          current_user load_traceback doctype_name_ file_url_
                          allow_create_ allow_update_)
      as [logged [e|job]] eqn:Hp.
    + cbn [fst snd enqueued start_errors]. intros E. injection E as E.
      split; [reflexivity|]. exists logged. eexists.
      split; [reflexivity|]. split; [reflexivity|].
      destruct (prepare_job_failure _ _ _ _ _ _ Hp) as [H|(H1 & H2 & H3 & H4)].
      * left. exact H.
      * right. subst e. cbn [str_of_exn] in E. subst e0.
        repeat split; assumption.
    + destruct (prepare_job_sound _ _ _ _ _ _ Hp) as (H0 & _).
      destruct (enqueue _) as [e|[]]; cbn [fst snd enqueued start_errors].
      * intros _. split; [reflexivity|]. exists logged. eexists.
        split; [reflexivity|]. split; [reflexivity|]. left. exact H0.
      * discriminate.
  - intros Hempty.
    assert (Hp : prepare_job site_path path_exists mapping_exists load_mapping_doc py_int
                             current_user load_traceback doctype_name_ file_url_
                             allow_create_ allow_update_
                 = ([], inl (Exception "Doctype name and file URL are required"))).
    { unfold prepare_job. destruct Hempty as [E|E]; subst.
      - reflexivity.
      - rewrite String.eqb_refl, orb_true_r. reflexivity. }
    rewrite Hp. cbn [fst snd start_errors]. split; [reflexivity|].
    eexists. reflexivity.
Qed.
End StartFacts.

(** ** The percentage of the last row *)

(** X24: the last row of a sheet reports exactly 100 percent, and it is a
    reporting row; the percentages never decrease from one row to a later
    one. *)
Theorem last_row_reports_hundred_percent (total_rows : Z) :
  0 < total_rows ->
  progress_percent (total_rows - 1) total_rows = 100
  /\ progress_due (total_rows - 1) total_rows = true
  /\ forall i j, 0 <= i <= j ->
                 progress_percent i total_rows <= progress_percent j total_rows.
Proof.
  intros Ht. split; [apply Binary64Facts.progress_percent_last; exact Ht|]. split.
  - unfold progress_due. replace (total_rows - 1 + 1) with total_rows by lia.
    rewrite Z.eqb_refl. apply orb_true_r.
  - intros i j Hij. apply Binary64Facts.progress_percent_mono; assumption.
Qed.

(** ** The extras on sample inputs *)

Lemma last_row_reports_hundred_percent_witness :
  progress_percent (1000 - 1) 1000 = 100
  /\ progress_due (1000 - 1) 1000 = true
  /\ forall i j, 0 <= i <= j -> progress_percent i 1000 <= progress_percent j 1000.
Proof. apply (last_row_reports_hundred_percent 1000). reflexivity. Defined.

Lemma allow_create_off_never_creates_witness :
  let job := contacts_job (Some "email_addr") 0 1 in
  let s := initial_state (store_with contacts_sheet [("REC-1", alice_doc)]) in
  created_count (counters (state_after_rows job contacts_sheet s)) = 0
  /\ forall c, In c (calls (state_after_rows job contacts_sheet s)) ->
               is_create_call c = true -> In c (calls s).
Proof.
  exact (allow_create_off_never_creates
           (contacts_job (Some "email_addr") 0 1) contacts_sheet
           (initial_state (store_with contacts_sheet [("REC-1", alice_doc)])) eq_refl).
Defined.

Lemma allow_update_off_never_updates_witness :
  let job := contacts_job (Some "email_addr") 1 0 in
  let s := initial_state (store_with contacts_sheet [("REC-1", alice_doc)]) in
  updated_count (counters (state_after_rows job contacts_sheet s)) = 0
  /\ forall c, In c (calls (state_after_rows job contacts_sheet s)) ->
               is_update_call c = true -> In c (calls s).
Proof.
  exact (allow_update_off_never_updates
           (contacts_job (Some "email_addr") 1 0) contacts_sheet
           (initial_state (store_with contacts_sheet [("REC-1", alice_doc)])) eq_refl).
Defined.

Lemma no_unique_field_never_looks_up_witness :
  let job := contacts_job None 1 1 in
  let s := initial_state (store_with contacts_sheet [("REC-1", alice_doc)]) in
  updated_count (counters (state_after_rows job contacts_sheet s)) = 0
  /\ forall c, In c (calls (state_after_rows job contacts_sheet s)) ->
               is_lookup_call c = true \/ is_update_call c = true -> In c (calls s).
Proof.
  exact (no_unique_field_never_looks_up
           (contacts_job None 1 1) contacts_sheet
           (initial_state (store_with contacts_sheet [("REC-1", alice_doc)])) eq_refl).
Defined.

Lemma dry_run_leaves_the_store_witness :
  let job := contacts_job (Some "email_addr") 0 0 in
  let s := initial_state (store_with contacts_sheet [("REC-1", alice_doc)]) in
  store (state_after_rows job contacts_sheet s) = store s
  /\ skipped_count (counters (state_after_rows job contacts_sheet s))
     + error_count (counters (state_after_rows job contacts_sheet s))
     = Z.of_nat (List.length (df_rows contacts_sheet)).
Proof.
  exact (dry_run_leaves_the_store
           (contacts_job (Some "email_addr") 0 0) contacts_sheet
           (initial_state (store_with contacts_sheet [("REC-1", alice_doc)]))
           eq_refl eq_refl).
Defined.

Lemma failed_commit_rolls_back_and_keeps_file_witness :
  let job := contacts_job (Some "email_addr") 1 1 in
  let s := initial_state (offline_store contacts_sheet) in
  let e := Exception "Lost connection to the database" in
  let r := process_excel_import job s in
  let s_loop := state_after_rows job contacts_sheet (with_user s (user job)) in
  calls (fst r) = calls s_loop ++ [CallCommit; CallRollback]
  /\ store (fst r) = db_rollback (store s_loop)
  /\ progress_events (fst r) = progress_events s_loop ++ [failure_event e].
Proof.
  apply (failed_commit_rolls_back_and_keeps_file
           (contacts_job (Some "email_addr") 1 1)
           (initial_state (offline_store contacts_sheet)) contacts_sheet).
  - reflexivity.
  - reflexivity.
  - vm_compute. reflexivity.
Defined.

Lemma completed_event_reports_all_rows_witness :
  let job := contacts_job (Some "email_addr") 1 1 in
  let s := initial_state (store_with contacts_sheet []) in
  let r := process_excel_import job s in
  let s_loop := state_after_rows job contacts_sheet (with_user s (user job)) in
  rows_counted (counters s_loop) = Z.of_nat (List.length (df_rows contacts_sheet))
  /\ snd r = inr tt
  /\ progress_events (fst r)
     = progress_events s_loop
       ++ [{| progress := 100; total := Z.of_nat (List.length (df_rows contacts_sheet));
              message := completion_message (counters s_loop);
              status := "completed" |}].
Proof.
  apply (completed_event_reports_all_rows
           (contacts_job (Some "email_addr") 1 1)
           (initial_state (store_with contacts_sheet [])) contacts_sheet
           (fst (mem_commit
                   (store (state_after_rows (contacts_job (Some "email_addr") 1 1)
                             contacts_sheet
                             (with_user (initial_state (store_with contacts_sheet []))
                                        "importer@example.com")))))).
  - reflexivity.
  - reflexivity.
  - vm_compute. reflexivity.
Defined.

Lemma draft_values_come_from_filled_cells_witness :
  let job := contacts_job (Some "email_addr") 1 1 in
  let row := [Object (PyStr "Bob"); NaN] in
  build_doc_data job ["Name"; "Email"] row
  = inr ([("doctype", PyStr "Contact"); ("title", PyStr "Bob")], PyNone)
  /\ draft_origin job ["Name"; "Email"] row "title" (PyStr "Bob")
  /\ is_not_none (PyStr "Bob") = true.
Proof.
  split; [reflexivity|].
  exact (draft_values_come_from_filled_cells
           (contacts_job (Some "email_addr") 1 1) ["Name"; "Email"]
           [Object (PyStr "Bob"); NaN]
           [("doctype", PyStr "Contact"); ("title", PyStr "Bob")] PyNone eq_refl
           "title" (PyStr "Bob") eq_refl).
Defined.

Lemma unique_value_is_draft_value_witness :
  let job := contacts_job (Some "email_addr") 1 1 in
  let alice := [("doctype", PyStr "Contact"); ("title", PyStr "Alice");
                ("email_addr", PyStr "a@x.com")] in
  let bob := [("doctype", PyStr "Contact"); ("title", PyStr "Bob")] in
  build_doc_data job ["Name"; "Email"] [Object (PyStr "Alice"); Object (PyStr "a@x.com")]
  = inr (alice, PyStr "a@x.com")
  /\ dict_get alice "email_addr" = Some (PyStr "a@x.com")
  /\ build_doc_data job ["Name"; "Email"] [Object (PyStr "Bob"); NaN] = inr (bob, PyNone)
  /\ dict_get bob "email_addr" = None
  /\ ((str_truthy (unique_field job) = false -> PyStr "a@x.com" = PyNone)
      /\ (str_truthy (unique_field job) = true ->
          (dict_get alice (str_or_empty (unique_field job)) = Some (PyStr "a@x.com")
           /\ is_not_none (PyStr "a@x.com") = true)
          \/ (PyStr "a@x.com" = PyNone
              /\ dict_get alice (str_or_empty (unique_field job))
                 = (if (str_or_empty (unique_field job) =? "doctype")%string
                    then Some (PyStr (doctype_name job)) else None))))
  /\ ((str_truthy (unique_field job) = false -> PyNone = PyNone)
      /\ (str_truthy (unique_field job) = true ->
          (dict_get bob (str_or_empty (unique_field job)) = Some PyNone
           /\ is_not_none PyNone = true)
          \/ (PyNone = PyNone
              /\ dict_get bob (str_or_empty (unique_field job))
                 = (if (str_or_empty (unique_field job) =? "doctype")%string
                    then Some (PyStr (doctype_name job)) else None)))).
Proof.
  split; [reflexivity|]. split; [reflexivity|]. split; [reflexivity|].
  split; [reflexivity|]. split.
  - exact (unique_value_is_draft_value
             (contacts_job (Some "email_addr") 1 1) ["Name"; "Email"]
             [Object (PyStr "Alice"); Object (PyStr "a@x.com")]
             [("doctype", PyStr "Contact"); ("title", PyStr "Alice");
              ("email_addr", PyStr "a@x.com")]
             (PyStr "a@x.com") eq_refl).
  - exact (unique_value_is_draft_value
             (contacts_job (Some "email_addr") 1 1) ["Name"; "Email"]
             [Object (PyStr "Bob"); NaN]
             [("doctype", PyStr "Contact"); ("title", PyStr "Bob")]
             PyNone eq_refl).
Defined.

Lemma resolved_file_exists_with_excel_extension_witness :
  let p := "/site/public/files/Prices.XLS" in
  sample_site_exists p = true
  /\ (lower (splitext_ext p) = ".xlsx" \/ lower (splitext_ext p) = ".xls")
  /\ (p = primary_candidate "/site" (lstrip_slash "//files/sub/Prices.XLS")
      \/ (sample_site_exists
            (primary_candidate "/site" (lstrip_slash "//files/sub/Prices.XLS")) = false
          /\ p = public_candidate "/site" (lstrip_slash "//files/sub/Prices.XLS"))).
Proof.
  exact (resolved_file_exists_with_excel_extension
           "/site" sample_site_exists "//files/sub/Prices.XLS"
           "/site/public/files/Prices.XLS" eq_refl).
Defined.

Lemma resolver_errors_witness :
  let e := Exception "Invalid file format. Please upload Excel file (.xlsx or .xls)" in
  (e = Exception ("File not found: " ++ lstrip_slash "/notes.txt")%string
   /\ sample_site_exists (primary_candidate "/site" (lstrip_slash "/notes.txt")) = false
   /\ sample_site_exists (public_candidate "/site" (lstrip_slash "/notes.txt")) = false)
  \/ (e = Exception "Invalid file format. Please upload Excel file (.xlsx or .xls)"
      /\ exists p, sample_site_exists p = true /\ accepted_extension p = false
                   /\ (p = primary_candidate "/site" (lstrip_slash "/notes.txt")
                       \/ p = public_candidate "/site" (lstrip_slash "/notes.txt"))).
Proof.
  exact (resolver_errors "/site" sample_site_exists "/notes.txt"
           (Exception "Invalid file format. Please upload Excel file (.xlsx or .xls)")
           eq_refl).
Defined.

Lemma start_enqueues_one_validated_job_witness :
  let r := start_on_sample_site "Contact" "/private/files/contacts.xlsx"
                                (PyInt 1) (PyBool false) in
  snd r = inr "Import started successfully"
  /\ exists job,
       enqueued (fst r)
       = enqueued fresh_request
         ++ [{| enq_queue := "long"; enq_timeout := 3000; enq_job := job |}]
       /\ start_errors (fst r) = start_errors fresh_request
       /\ sample_mapping_exists "Contact" = true
       /\ doctype_name job = "Contact"
       /\ validate_excel_file "/site" sample_site_exists "/private/files/contacts.xlsx"
          = inr (file_path job)
       /\ field_mapping job <> []
       /\ NoDup (dict_keys (field_mapping job))
       /\ (unique_field job = None \/ str_truthy (unique_field job) = true)
       /\ int_of_flag (PyInt 1) = inr (allow_create job)
       /\ int_of_flag (PyBool false) = inr (allow_update job)
       /\ user job = "importer@example.com".
Proof.
  split; [reflexivity|].
  apply (start_enqueues_one_validated_job
           "/site" sample_site_exists sample_mapping_exists sample_load_mapping_doc
           int_of_flag "importer@example.com" accept_job str_of_exn "DoesNotExistError"
           "Contact" "/private/files/contacts.xlsx" (PyInt 1) (PyBool false)
           fresh_request _ "Import started successfully").
  vm_compute. reflexivity.
Defined.
